(** * The NNTP client of go-nntp (client/client.go), embedded and verified

    The client drives a [net/textproto] connection.  The embedding keeps the
    shape of the Go code: a method of [*Client] is a computation over the
    connection it owns, a Go result [(v, err)] is a pair whose last component
    is [option error] ([None] is [nil]), and a run-time panic (an index out of
    range) is a separate outcome, not an error value. *)

From Stdlib Require Import ZArith Ascii String.
From stdpp Require Import base option list strings gmap.

Local Open Scope string_scope.
Local Open Scope Z_scope.

(** ** Errors and panics *)

(** [strconv.ErrSyntax] and [strconv.ErrRange]. *)
Inductive numerr := ErrSyntax | ErrRange.

(** The error values that can reach the client's callers. *)
Inductive error :=
  | EOF                                         (* io.EOF *)
  | ErrUnexpectedEOF                            (* io.ErrUnexpectedEOF *)
  | ErrTooLong                                  (* bufio.ErrTooLong *)
  | ErrWrite                                    (* the transport refused a write *)
  | ErrDial                                     (* textproto.Dial failed *)
  | ErrZlib                                     (* zlib.NewReader or its stream failed *)
  | ProtocolError (s : string)                  (* textproto.ProtocolError *)
  | Error (Code : Z) (Msg : string)             (* *textproto.Error *)
  | NumError (Func Num : string) (Err : numerr) (* *strconv.NumError *)
  | errorString (s : string).                   (* errors.New *)

(** The run-time panics of [a[i]] with [len(a) <= i] and of [a[i:]] with
    [len(a) < i]. *)
Inductive panic :=
  | IndexOutOfRange (i len : nat)
  | SliceOutOfRange (i len : nat).

Inductive outcome (A : Type) : Type :=
  | Ret (a : A)
  | Panic (p : panic).
Arguments Ret {A} a.
Arguments Panic {A} p.

#[global] Instance outcome_ret : MRet outcome := @Ret.
#[global] Instance outcome_bind : MBind outcome := fun A B f m =>
  match m with
  | Ret a => f a
  | Panic p => Panic p
  end.

(** [a[i]] on a slice. *)
Definition index {A} (a : list A) (i : nat) : outcome A :=
  match a !! i with
  | Some x => Ret x
  | None => Panic (IndexOutOfRange i (length a))
  end.

(** [a[i:]] on a slice. *)
Definition sliceFrom {A} (a : list A) (i : nat) : outcome (list A) :=
  if (i <=? length a)%nat then Ret (drop i a) else Panic (SliceOutOfRange i (length a)).

(** ** strings *)

Definition SP : ascii := " "%char.
Definition TAB : ascii := "009"%char.
Definition CR : ascii := "013"%char.
Definition LF : ascii := "010"%char.
Definition COLON : ascii := ":"%char.
Definition DOT : ascii := "."%char.

(** [strings.Split(s, sep)] for a separator of one byte, which is all the
    client uses: the pieces between the separators, one more than there are
    separators. *)
Fixpoint Split (s : string) (sep : ascii) : list string :=
  match s with
  | EmptyString => [EmptyString]
  | String c r =>
      if Ascii.eqb c sep then EmptyString :: Split r sep
      else match Split r sep with
           | [] => [String c EmptyString]
           | p :: ps => String c p :: ps
           end
  end.

(** [strings.SplitN(s, sep, 2)]: cut at the first separator, if there is
    one. *)
Fixpoint cut (s : string) (sep : ascii) : option (string * string) :=
  match s with
  | EmptyString => None
  | String c r =>
      if Ascii.eqb c sep then Some (EmptyString, r)
      else '(a, b) ← cut r sep; Some (String c a, b)
  end.

Definition SplitN2 (s : string) (sep : ascii) : list string :=
  match cut s sep with
  | Some (a, b) => [a; b]
  | None => [s]
  end.

(** ** strconv *)

Definition digit (c : ascii) : option Z :=
  let n := Z.of_nat (nat_of_ascii c) in
  if (48 <=? n) && (n <=? 57) then Some (n - 48) else None.

Definition maxUint64 : Z := 2 ^ 64 - 1.

(** The digit loop of [strconv.ParseUint(s, 10, 64)], on 64-bit unsigned
    arithmetic: a byte that is no digit is a syntax error, and the value
    leaving the 64 bits is a range error reported at once, with the largest
    value. *)
Fixpoint parseUintLoop (s : string) (n : Z) : Z * option numerr :=
  match s with
  | EmptyString => (n, None)
  | String c r =>
      match digit c with
      | None => (0, Some ErrSyntax)
      | Some d =>
          if maxUint64 / 10 + 1 <=? n then (maxUint64, Some ErrRange)
          else
            let n1 := n * 10 + d in
            if maxUint64 <? n1 then (maxUint64, Some ErrRange)
            else parseUintLoop r n1
      end
  end.

Definition ParseUint (s : string) : Z * option numerr :=
  match s with
  | EmptyString => (0, Some ErrSyntax)
  | _ => parseUintLoop s 0
  end.

(** [strconv.ParseInt(s, 10, 64)], the function name of the error left to
    the caller ([strconv.Atoi] on a short string is the same function under
    another name). *)
Definition parseInt (fn : string) (s : string) : Z * option error :=
  match s with
  | EmptyString => (0, Some (NumError fn s ErrSyntax))
  | String c r =>
      let neg := Ascii.eqb c "-" in
      let body := if Ascii.eqb c "+" || neg then r else s in
      match ParseUint body with
      | (_, Some ErrSyntax) => (0, Some (NumError fn s ErrSyntax))
      | (un, _) =>
          let cutoff := 2 ^ 63 in
          if negb neg && (cutoff <=? un) then
            (cutoff - 1, Some (NumError fn s ErrRange))
          else if neg && (cutoff <? un) then
            (- cutoff, Some (NumError fn s ErrRange))
          else (if neg then - un else un, None)
      end
  end.

Definition ParseInt : string → Z * option error := parseInt "ParseInt".
Definition Atoi : string → Z * option error := parseInt "Atoi".

(** ** The nntp package's values *)

(** Modelled from the spec: the declarations of [nntp.PostingStatus] and
    [nntp.Group] are in the repository's root package, which is not part of
    the sources at hand.  The spec's group descriptor is the record of name,
    article count, low and high watermark and posting permission, the
    permission one of permitted, moderated and not permitted; the constructor
    names are those client.go uses.  [Unknown] stands for the zero value of
    the Go type, which a field that is never assigned keeps. *)
Module nntp.

Inductive PostingStatus :=
  | Unknown
  | PostingPermitted
  | PostingNotPermitted
  | PostingModerated.

Record Group := mkGroup {
  Name : string;
  Count : Z;
  High : Z;
  Low : Z;
  Posting : PostingStatus;
}.

End nntp.

(** The zero value [nntp.Group{}] of a named result, and the assignments to
    its fields. *)
Definition Group0 : nntp.Group := nntp.mkGroup "" 0 0 0 nntp.Unknown.

Definition setCount (g : nntp.Group) (n : Z) : nntp.Group :=
  nntp.mkGroup (nntp.Name g) n (nntp.High g) (nntp.Low g) (nntp.Posting g).
Definition setLow (g : nntp.Group) (n : Z) : nntp.Group :=
  nntp.mkGroup (nntp.Name g) (nntp.Count g) (nntp.High g) n (nntp.Posting g).
Definition setHigh (g : nntp.Group) (n : Z) : nntp.Group :=
  nntp.mkGroup (nntp.Name g) (nntp.Count g) n (nntp.Low g) (nntp.Posting g).
Definition setName (g : nntp.Group) (s : string) : nntp.Group :=
  nntp.mkGroup s (nntp.Count g) (nntp.High g) (nntp.Low g) (nntp.Posting g).

(** ** The connection *)

(** What a reader delivers when it is read to its end: the text, cut at the
    line ends, and the error that stops it ([None] for a plain end of file). *)
Record Source := mkSource {
  srcLines : list string;
  srcErr : option error;
}.

Inductive event :=
  | EvWrite (bytes : string)   (* bytes handed to the transport *)
  | EvRead (line : string).    (* a line taken from the transport *)

(** A [textproto.Conn] together with the peer it talks to.  [unread] are the
    lines the server sends from now on, without their line ends; after the
    last one the connection is at end of file.  [quota] is the number of bytes
    the transport still accepts ([None]: it never fails) and [werr] the error
    the writer holds once a write failed.  [zdata] is what [zlib.NewReader]
    makes of the bytes that are left on the connection (the decoder itself is
    outside the client).  [log] records the exchanges, oldest first.  The
    framing of lines by CR LF and the buffer of the reader are not modelled:
    a line is a unit.  The buffer of the writer is empty between the calls of
    the client, because [PrintfLine] flushes it; it is modelled where it
    holds bytes, in the dot writer of [Post].  The bytes that are left in it
    when [Post] stops at an error of the article's reader are not kept for a
    later call. *)
Record Conn := mkConn {
  unread : list string;
  quota : option nat;
  werr : option error;
  zdata : error + Source;
  log : list event;
}.

(** A method of the client: a computation on the connection that returns or
    panics. *)
Definition M (A : Type) : Type := Conn → outcome (A * Conn).

#[global] Instance M_ret : MRet M := fun A a c => Ret (a, c).
#[global] Instance M_bind : MBind M := fun A B f m c =>
  match m c with
  | Ret (a, c') => f a c'
  | Panic p => Panic p
  end.

Definition lift {A} (o : outcome A) : M A := fun c =>
  match o with
  | Ret a => Ret (a, c)
  | Panic p => Panic p
  end.

(** The bytes written so far and the lines read so far. *)
Definition written (c : Conn) : string :=
  foldr (fun e acc => match e with EvWrite b => b ++ acc | EvRead _ => acc end) "" (log c).
Definition reads (c : Conn) : list string :=
  omap (fun e => match e with EvRead l => Some l | _ => None end) (log c).

(** ** net/textproto *)

(** [Reader.ReadLine]. *)
Definition ReadLine : M (string * option error) := fun c =>
  match unread c with
  | [] => Ret (("", Some EOF), c)
  | l :: r => Ret ((l, None), mkConn r (quota c) (werr c) (zdata c) (log c ++ [EvRead l]))
  end.

(** A write of the connection's writer that goes through to the transport:
    the transport takes the bytes or, short of quota, a part of them and
    fails; the writer keeps the error and writes nothing once it holds one. *)
Definition write (b : string) : M (option error) := fun c =>
  match werr c with
  | Some e => Ret (Some e, c)
  | None =>
      match quota c with
      | None => Ret (None, mkConn (unread c) None None (zdata c) (log c ++ [EvWrite b]))
      | Some q =>
          if (String.length b <=? q)%nat then
            Ret (None, mkConn (unread c) (Some (q - String.length b)%nat) None (zdata c)
                         (log c ++ [EvWrite b]))
          else
            Ret (Some ErrWrite, mkConn (unread c) (Some 0%nat) (Some ErrWrite) (zdata c)
                         (log c ++ [EvWrite (substring 0 q b)]))
      end
  end.

Definition CRLF : string := String CR (String LF "").

(** [Writer.PrintfLine], on the text already formatted (the client's formats
    only splice strings with [%s]).  It flushes the buffer before it returns,
    so the line reaches the transport in the call. *)
Definition PrintfLine (line : string) : M (option error) := write (line ++ CRLF).

(** [parseCodeLine] of textproto: the three digits, the separator, the
    message, and the comparison with the expected code, which is a whole code,
    its first two digits or its first digit. *)
Definition parseCodeLine (line : string) (expectCode : Z) : Z * bool * string * option error :=
  let sep := String.get 3 line in
  if (String.length line <? 4)%nat
     || negb (bool_decide (sep = Some SP) || bool_decide (sep = Some "-"%char)) then
    (0, false, "", Some (ProtocolError ("short response: " ++ line)))
  else
    let continued := bool_decide (sep = Some "-"%char) in
    let '(code, err) := Atoi (substring 0 3 line) in
    if bool_decide (err ≠ None) || (code <? 100) then
      (code, continued, "", Some (ProtocolError ("invalid response code: " ++ line)))
    else
      let message := substring 4 (String.length line - 4) line in
      if (1 <=? expectCode) && (expectCode <? 10) && negb (code `quot` 100 =? expectCode)
         || (10 <=? expectCode) && (expectCode <? 100) && negb (code `quot` 10 =? expectCode)
         || (100 <=? expectCode) && (expectCode <? 1000) && negb (code =? expectCode)
      then (code, continued, message, Some (Error code message))
      else (code, continued, message, None).

(** [Reader.ReadCodeLine]. *)
Definition ReadCodeLine (expectCode : Z) : M (Z * string * option error) :=
  '(line, err) ← ReadLine;
  match err with
  | Some e => mret (0, "", Some e)
  | None =>
      let '(code, continued, message, err) := parseCodeLine line expectCode in
      if bool_decide (err = None) && continued then
        mret (code, message, Some (ProtocolError ("unexpected multi-line response: " ++ message)))
      else mret (code, message, err)
  end.

(** The lines of a dot-terminated block: a line that is a single dot ends
    it, any other leading dot is cut, and the end of the input before the
    closing dot is [io.ErrUnexpectedEOF].  Returns the lines, the error and
    how many lines of the input were taken. *)
Fixpoint dotLines (ls : list string) (v : list string) (n : nat) : list string * option error * nat :=
  match ls with
  | [] => (v, Some ErrUnexpectedEOF, n)
  | line :: r =>
      match line with
      | String c line' =>
          if Ascii.eqb c DOT then
            match line' with
            | EmptyString => (v, None, S n)
            | _ => dotLines r (v ++ [line']) (S n)
            end
          else dotLines r (v ++ [line]) (S n)
      | EmptyString => dotLines r (v ++ [line]) (S n)
      end
  end.

Definition takeLines (n : nat) (c : Conn) : Conn :=
  mkConn (drop n (unread c)) (quota c) (werr c) (zdata c)
         (log c ++ (EvRead <$> take n (unread c))).

(** [Reader.ReadDotLines]. *)
Definition ReadDotLines : M (list string * option error) := fun c =>
  let '(v, err, n) := dotLines (unread c) [] 0 in
  Ret ((v, err), takeLines n c).

(** [Reader.DotReader], read to its end: the same block as a [Source]. *)
Definition DotReader : M Source := fun c =>
  let '(v, err, n) := dotLines (unread c) [] 0 in
  Ret (mkSource v err, takeLines n c).

(** The states of textproto's [dotWriter]. *)
Inductive wstate := wstateBegin | wstateBeginLine | wstateCR | wstateData.

(** The size of the buffer of the connection's [bufio.Writer], which
    [textproto.NewConn] makes with [bufio.NewWriter]. *)
Definition defaultBufSize : nat := 4096.

(** [Writer.Available], for the bytes [buf] that wait in the buffer. *)
Definition Available (buf : string) : nat := defaultBufSize - String.length buf.

(** The error [b.err] that the [bufio.Writer] holds. *)
Definition writerErr : M (option error) := fun c => Ret (werr c, c).

(** [bufio.Writer.Flush]: the buffer goes to the transport in one write.
    When the transport fails, what it did not take stays in the buffer and
    the writer keeps the error.  Returns the buffer that is left. *)
Definition bufio_Flush (buf : string) : M (string * option error) := fun c =>
  match werr c with
  | Some e => Ret ((buf, Some e), c)
  | None =>
      if bool_decide (buf = "") then Ret ((buf, None), c)
      else
        let n := match quota c with
                 | None => String.length buf
                 | Some q => Nat.min q (String.length buf)
                 end in
        (err ← write buf;
         match err with
         | Some e => mret (substring n (String.length buf - n) buf, Some e)
         | None => mret ("", None)
         end) c
  end.

(** [bufio.Writer.WriteByte]: a full buffer is flushed first, and the byte is
    dropped when the writer holds an error. *)
Definition bufio_WriteByte (a : ascii) (buf : string) : M (string * option error) :=
  err ← writerErr;
  match err with
  | Some e => mret (buf, Some e)
  | None =>
      '(buf, err) ← (if (Available buf <=? 0)%nat then bufio_Flush buf else mret (buf, None));
      match err with
      | Some e => mret (buf, Some e)
      | None => mret (buf ++ String a "", None)
      end
  end.

(** [bufio.Writer.Write].  Its loop runs while the bytes do not fit and the
    writer holds no error, and it runs at most twice: with bytes in the
    buffer it fills the buffer and flushes it, with the buffer empty it hands
    what is left to the transport, which takes all of it or fails. *)
Definition bufio_Write (p : string) (buf : string) : M (string * option error) :=
  let direct (p : string) : M (string * option error) :=
    if (String.length p <=? defaultBufSize)%nat then mret (p, None)
    else err ← write p; mret ("", err) in
  err ← writerErr;
  match err with
  | Some e => mret (buf, Some e)
  | None =>
      if (String.length p <=? Available buf)%nat then mret (buf ++ p, None)
      else if bool_decide (buf = "") then direct p
      else
        let n := Available buf in
        '(buf, err) ← bufio_Flush (buf ++ substring 0 n p);
        match err with
        | Some e => mret (buf, Some e)
        | None => direct (substring n (String.length p - n) p)
        end
  end.

(** A [dotWriter]: its state, and in [W] the bytes that wait in the buffer
    of the connection's writer [d.w.W], to which only the dot writer writes
    while it is open. *)
Record dotWriter := mkDotWriter {
  state : wstate;
  W : string;
}.

(** [Writer.DotWriter]: a dot writer in its first state.  The buffer is
    empty then, since [PrintfLine] flushes it. *)
Definition DotWriter : dotWriter := mkDotWriter wstateBegin "".

(** The [wstateData] case of [dotWriter.Write]: a bare line feed gets its
    carriage return. *)
Definition dotWriterData (st : wstate) (c : ascii) (bw : string) : M (wstate * string) :=
  let st := if Ascii.eqb c CR then wstateCR else st in
  if Ascii.eqb c LF then '(bw, _) ← bufio_WriteByte CR bw; mret (wstateBeginLine, bw)
  else mret (st, bw).

(** One round of the loop of [dotWriter.Write]: the byte [c], escaped when it
    is a dot that begins a line.  Only the result of the last [WriteByte] is
    looked at. *)
Definition dotWriterByte (d : dotWriter) (c : ascii) : M (dotWriter * option error) :=
  '(st, bw) ← match state d with
              | wstateBegin | wstateBeginLine =>
                  '(bw, _) ← (if Ascii.eqb c DOT then bufio_WriteByte DOT (W d)
                              else mret (W d, None));
                  dotWriterData wstateData c bw
              | wstateData => dotWriterData wstateData c (W d)
              | wstateCR => mret (if Ascii.eqb c LF then wstateBeginLine else wstateData, W d)
              end;
  '(bw, err) ← bufio_WriteByte c bw;
  mret (mkDotWriter st bw, err).

(** [dotWriter.Write]: the loop stops at the first byte the writer refuses. *)
Fixpoint dotWriter_Write (b : string) (d : dotWriter) (n : nat) : M (dotWriter * nat * option error) :=
  match b with
  | EmptyString => mret (d, n, None)
  | String c r =>
      '(d, err) ← dotWriterByte d c;
      match err with
      | Some e => mret (d, n, Some e)
      | None => dotWriter_Write r d (S n)
      end
  end.

(** [dotWriter.Close]: ends the last line if need be, writes the closing
    dot and flushes the buffer; the error is that of the flush. *)
Definition dotWriter_Close (d : dotWriter) : M (option error) :=
  let dotcrnl := String DOT CRLF in
  '(bw, _) ← match state d with
             | wstateCR =>
                 '(bw, _) ← bufio_WriteByte LF (W d);
                 bufio_Write dotcrnl bw
             | wstateBeginLine => bufio_Write dotcrnl (W d)
             | _ =>
                 '(bw, _) ← bufio_WriteByte CR (W d);
                 '(bw, _) ← bufio_WriteByte LF bw;
                 bufio_Write dotcrnl bw
             end;
  '(_, err) ← bufio_Flush bw;
  mret err.

(** An [io.Reader] handed in by the caller, read to its end: its bytes and
    the error that stops it ([None] for [io.EOF]). *)
Record Reader := mkReader {
  rdData : string;
  rdErr : option error;
}.

(** [io.Copy(w, r)] into a [dotWriter]: the bytes go through [Write] in the
    order they are read, whatever the size of the chunks; a write error stops
    the copy, a read error ends it. *)
Definition Copy (d : dotWriter) (r : Reader) : M (dotWriter * nat * option error) :=
  '(d, n, err) ← dotWriter_Write (rdData r) d 0;
  match err with
  | Some e => mret (d, n, Some e)
  | None => mret (d, n, rdErr r)
  end.

(** [textproto.MIMEHeader] and its [Set], which stores the value under the
    canonical form of the key. *)
Abbreviation MIMEHeader := (gmap string (list string)).

Definition between (lo hi : Z) (c : ascii) : bool :=
  let n := Z.of_nat (nat_of_ascii c) in (lo <=? n) && (n <=? hi).
Definition isLower : ascii → bool := between 97 122.
Definition isUpper : ascii → bool := between 65 90.
Definition isDigit : ascii → bool := between 48 57.

(** The token bytes of RFC 7230. *)
Definition validHeaderFieldByte (c : ascii) : bool :=
  isLower c || isUpper c || isDigit c
  || bool_decide (c ∈ list_ascii_of_string "!#$%&'*+-.^_`|~").

Definition shift (d : Z) (c : ascii) : ascii :=
  ascii_of_nat (Z.to_nat (Z.of_nat (nat_of_ascii c) + d)).

Fixpoint canonical (s : string) (upper : bool) : string :=
  match s with
  | EmptyString => EmptyString
  | String c r =>
      let c := if upper && isLower c then shift (-32) c
               else if negb upper && isUpper c then shift 32 c
               else c in
      String c (canonical r (Ascii.eqb c "-"))
  end.

(** [textproto.CanonicalMIMEHeaderKey] (of the current Go library): a key of
    token bytes gets an upper case letter first and after each dash and lower
    case letters elsewhere; any other key is left as it is. *)
Definition CanonicalMIMEHeaderKey (s : string) : string :=
  if forallb validHeaderFieldByte (list_ascii_of_string s) then canonical s true else s.

Definition MIMEHeader_Set (h : MIMEHeader) (key value : string) : MIMEHeader :=
  <[CanonicalMIMEHeaderKey key := [value]]> h.

(** [bufio.MaxScanTokenSize]: a [bufio.Scanner] gives up with [ErrTooLong] on
    a line that does not fit, with its line end, a buffer of this size. *)
Definition MaxScanTokenSize : Z := 64 * 1024.

(** ** The client *)

(** [Client].  The methods below run on the connection, which the client
    owns; each starts from a connection with no dot reader pending. *)
Record Client := mkClient {
  conn : Conn;
  Banner : string;
}.

(** What [textproto.Dial] makes of a network and an address. *)
Definition Network : Type := string → string → error + Conn.

Definition New (Dial : Network) (net addr : string) : outcome (option Client * option error) :=
  match Dial net addr with
  | inl err => Ret (None, Some err)
  | inr conn =>
      '((_, msg, err), conn) ← ReadCodeLine 200 conn;
      match err with
      | Some e => Ret (None, Some e)
      | None => Ret (Some (mkClient conn msg), None)
      end
  end.

(** [Command] hands its text to [PrintfLine] as the format, with no operand.
    A text without a [%] is sent as it is, and that is what the model sends
    for every text: what [fmt] makes of a [%] in the command is not modelled,
    and a statement on the bytes that are sent holds for texts without a [%]
    only (see [noVerb]).  The same goes for [MultilineCommand]. *)
Definition Command (cmd : string) (expectCode : Z) : M (Z * string * option error) :=
  err ← PrintfLine cmd;
  match err with
  | Some e => mret (0, "", Some e)
  | None => ReadCodeLine expectCode
  end.

Definition MultilineCommand (cmd : string) (expectCode : Z) : M (Z * list string * option error) :=
  err ← PrintfLine cmd;
  match err with
  | Some e => mret (0, [], Some e)
  | None =>
      '(rc, l, err) ← ReadCodeLine expectCode;
      match err with
      | Some e => mret (rc, [], Some e)
      | None =>
          let lines := [l] in
          '(ls, err) ← ReadDotLines;
          let lines := (lines ++ ls)%list in
          mret (rc, lines, err)
      end
  end.

Definition Authenticate (user pass : string) : M (string * option error) :=
  err ← PrintfLine ("authinfo user " ++ user);
  match err with
  | Some e => mret ("", Some e)
  | None =>
      '(_, _, err) ← ReadCodeLine 381;
      match err with
      | Some e => mret ("", Some e)
      | None =>
          err ← PrintfLine ("authinfo pass " ++ pass);
          match err with
          | Some e => mret ("", Some e)
          | None => '(_, msg, err) ← ReadCodeLine 281; mret (msg, err)
          end
      end
  end.

Definition parsePosting (p : string) : nntp.PostingStatus :=
  if bool_decide (p = "y") then nntp.PostingPermitted
  else if bool_decide (p = "m") then nntp.PostingModerated
  else nntp.PostingNotPermitted.

(** A [for ... range] loop whose body may panic. *)
Fixpoint forRange {A S : Type} (body : S → A → outcome S) (l : list A) (s : S) : outcome S :=
  match l with
  | [] => Ret s
  | x :: r => s ← body s x; forRange body r s
  end.

(** The body of the loop of [List], on the slice [rv] built so far. *)
Definition ListBody (rv : list nntp.Group) (l : string) : outcome (list nntp.Group) :=
  let parts := Split l SP in
  p1 ← index parts 1;
  let '(high, errh) := ParseInt p1 in
  p2 ← index parts 2;
  let '(low, errl) := ParseInt p2 in
  if bool_decide (errh = None) && bool_decide (errl = None) then
    p0 ← index parts 0;
    p3 ← index parts 3;
    mret (rv ++ [nntp.mkGroup p0 0 high low (parsePosting p3)])%list
  else mret rv.

Definition List (sub : string) : M (list nntp.Group * option error) :=
  '(_, _, err) ← Command ("LIST " ++ sub) 215;
  match err with
  | Some e => mret ([], Some e)
  | None =>
      '(groupLines, err) ← ReadDotLines;
      match err with
      | Some e => mret ([], Some e)
      | None =>
          rv ← lift (forRange ListBody groupLines []);
          mret (rv, None)
      end
  end.

(** The text of [Group] after the exchange: the assignment to [err] for a
    wrong number of fields is followed by no return, and the next assignment
    to [err] replaces it. *)
Definition GroupParse (msg : string) : outcome (nntp.Group * option error) :=
  let rv := Group0 in
  let parts := Split msg SP in
  let err := if bool_decide (length parts ≠ 4%nat)
             then Some (errorString ("Don't know how to parse result: " ++ msg))
             else None in
  p0 ← index parts 0;
  let '(n, err) := ParseInt p0 in
  let rv := setCount rv n in
  match err with
  | Some e => mret (rv, Some e)
  | None =>
      p1 ← index parts 1;
      let '(n, err) := ParseInt p1 in
      let rv := setLow rv n in
      match err with
      | Some e => mret (rv, Some e)
      | None =>
          p2 ← index parts 2;
          let '(n, err) := ParseInt p2 in
          let rv := setHigh rv n in
          match err with
          | Some e => mret (rv, Some e)
          | None =>
              p3 ← index parts 3;
              let rv := setName rv p3 in
              mret (rv, err)
          end
      end
  end.

Definition Group (name : string) : M (nntp.Group * option error) :=
  '(_, msg, err) ← Command ("GROUP " ++ name) 211;
  match err with
  | Some e => mret (Group0, Some e)
  | None => lift (GroupParse msg)
  end.

(** The [io.Reader] that [Article], [Head] and [Body] hand out: the
    connection's dot reader, which the caller reads ([DotReader]). *)
Inductive ioReader := connDotReader.

Definition articleish (expected : Z) : M (Z * string * option ioReader * option error) :=
  '(_, msg, err) ← ReadCodeLine expected;
  match err with
  | Some e => mret (0, "", None, Some e)
  | None =>
      let parts := SplitN2 msg SP in
      p0 ← lift (index parts 0);
      let '(n, err) := ParseInt p0 in
      match err with
      | Some e => mret (0, "", None, Some e)
      | None =>
          p1 ← lift (index parts 1);
          mret (n, p1, Some connDotReader, None)
      end
  end.

Definition Article (specifier : string) : M (Z * string * option ioReader * option error) :=
  err ← PrintfLine ("ARTICLE " ++ specifier);
  match err with
  | Some e => mret (0, "", None, Some e)
  | None => articleish 220
  end.

Definition Head (specifier : string) : M (Z * string * option ioReader * option error) :=
  err ← PrintfLine ("HEAD " ++ specifier);
  match err with
  | Some e => mret (0, "", None, Some e)
  | None => articleish 221
  end.

Definition Body (specifier : string) : M (Z * string * option ioReader * option error) :=
  err ← PrintfLine ("BODY " ++ specifier);
  match err with
  | Some e => mret (0, "", None, Some e)
  | None => articleish 222
  end.

Definition Post (r : Reader) : M (option error) :=
  err ← PrintfLine "POST";
  match err with
  | Some e => mret (Some e)
  | None =>
      '(_, _, err) ← ReadCodeLine 340;
      match err with
      | Some e => mret (Some e)
      | None =>
          let w := DotWriter in
          '(w, _, err) ← Copy w r;
          match err with
          | Some e => mret (Some e)
          | None =>
              _ ← dotWriter_Close w;
              '(_, _, err) ← ReadCodeLine 240;
              mret err
          end
      end
  end.

(** ** Overviews *)

Record Overview := mkOverview {
  Headers : MIMEHeader;     (* the nil map of an error record reads as the empty one *)
  Err : option error;
}.

(** What the consumer of the channel of [XOver] gets when it drains it: the
    records sent, in order, and then either the close of the channel or the
    panic of the sending goroutine, which ends the program. *)
Inductive ending := Closed | Crashed (p : panic).

Record Chan := mkChan {
  sent : list Overview;
  final : ending;
}.

Definition send (o : Overview) (ch : Chan) : Chan := mkChan (o :: sent ch) (final ch).

(** The body of the loop over the lines of LIST OVERVIEW.FMT: the name
    before the first colon is a column, and it is full when the text after
    that colon is the word full. *)
Definition FormatBody (st : list string * gmap string bool) (l : string)
  : outcome (list string * gmap string bool) :=
  let '(headers, headerFull) := st in
  let parts := SplitN2 l COLON in
  h ← index parts 0;
  p1 ← index parts 1;
  let full := bool_decide (p1 = "full") in
  mret ((headers ++ [h])%list, <[h := full]> headerFull).

(** Lines 184 to 198 of [XOver], after the exchange: the columns and their
    flags from the lines that [MultilineCommand] returned. *)
Definition Format (lines : list string) : outcome (list string * gmap string bool) :=
  let headers := ["Article"] in
  let headerFull : gmap string bool := ∅ in
  ls ← sliceFrom lines 1;
  forRange FormatBody ls (headers, headerFull).

(** The inner loop of the goroutine, from field [i] on: the fields of a
    line, each stored under the column of its position. *)
Fixpoint DecodeFields (headers : list string) (headerFull : gmap string bool)
    (fields : list string) (i : nat) (o : MIMEHeader) : outcome MIMEHeader :=
  match fields with
  | [] => Ret o
  | val :: r =>
      h ← index headers i;
      val ← (if default false (headerFull !! h)
             then index (SplitN2 val COLON) 1
             else Ret val);
      DecodeFields headers headerFull r (S i) (MIMEHeader_Set o h val)
  end.

Definition Decode (headers : list string) (headerFull : gmap string bool) (l : string)
  : outcome Overview :=
  h ← DecodeFields headers headerFull (Split l TAB) 0 ∅;
  mret (mkOverview h None).

(** The loop [for scanner.Scan()] and what follows it: a record for each
    line, until a line is too long for the scanner, and a last record for the
    error of the scanner, if it has one. *)
Fixpoint Scan (headers : list string) (headerFull : gmap string bool)
    (ls : list string) (fin : option error) : Chan :=
  match ls with
  | [] =>
      match fin with
      | Some e => mkChan [mkOverview ∅ (Some e)] Closed
      | None => mkChan [] Closed
      end
  | l :: r =>
      if MaxScanTokenSize <=? Z.of_nat (String.length l) then
        mkChan [mkOverview ∅ (Some ErrTooLong)] Closed
      else
        match Decode headers headerFull l with
        | Ret o => send o (Scan headers headerFull r fin)
        | Panic p => mkChan [] (Crashed p)
        end
  end.

(** The goroutine of [XOver], run to its end, as under a consumer that
    drains the channel.  Without compression it reads the dot reader of the
    connection; the connection is left as after the whole block, also when the
    loop stops early. *)
Definition Producer (headers : list string) (headerFull : gmap string bool)
    (compress : bool) : M Chan :=
  if compress then
    fun c =>
      match zdata c with
      | inl e => Ret (mkChan [mkOverview ∅ (Some e)] Closed, c)
      | inr zr => Ret (Scan headers headerFull (srcLines zr) (srcErr zr), c)
      end
  else
    r ← DotReader;
    mret (Scan headers headerFull (srcLines r) (srcErr r)).

Definition XOver (specifier : string) (compress : bool) : M (option Chan * option error) :=
  let verb := if compress then "XZVER" else "XOVER" in
  '(_, lines, err) ← MultilineCommand "LIST OVERVIEW.FMT" 215;
  match err with
  | Some e => mret (None, Some e)
  | None =>
      '(headers, headerFull) ← lift (Format lines);
      err ← PrintfLine (verb ++ " " ++ specifier);
      match err with
      | Some e => mret (None, Some e)
      | None =>
          '(_, _, err) ← ReadCodeLine 224;
          match err with
          | Some e => mret (None, Some e)
          | None =>
              ch ← Producer headers headerFull compress;
              mret (Some ch, None)
          end
      end
  end.

(** * Properties *)

(** ** The vocabulary of the statements *)

(** A connection on which the server sends the lines [ls] and the transport
    takes every write. *)
Definition serverSends (ls : list string) : Conn := mkConn ls None None (inl ErrZlib) [].

(** The value of a computation, without the connection. *)
Definition value {A} (o : outcome (A * Conn)) : outcome A :=
  match o with
  | Ret (a, _) => Ret a
  | Panic p => Panic p
  end.

(** The line as the reader of a block gives it: without its escaping dot. *)
Definition unstuff (l : string) : string :=
  match l with
  | String c r => if Ascii.eqb c DOT then r else l
  | EmptyString => l
  end.

(** The entry of a line of the listing, in the words of the spec: name,
    high, low and posting flag, when the two numbers parse. *)
Definition ListEntry (l : string) : option nntp.Group :=
  match Split l SP with
  | name :: high :: low :: flag :: _ =>
      match ParseInt high, ParseInt low with
      | (h, None), (lo, None) => Some (nntp.mkGroup name 0 h lo (parsePosting flag))
      | _, _ => None
      end
  | _ => None
  end.

(** The second and third field of the line are there and are numbers. *)
Definition numbersParse (l : string) : Prop :=
  ∃ name high low more h lo,
    Split l SP = name :: high :: low :: more
    ∧ ParseInt high = (h, None) ∧ ParseInt low = (lo, None).

(** The lines that [List] gets through, and those on which it panics. *)
Definition listed (l : string) : Prop :=
  (4 ≤ length (Split l SP))%nat
  ∨ (length (Split l SP) = 3%nat ∧ ¬ numbersParse l).

Definition fatal (l : string) : Prop :=
  (length (Split l SP) < 3)%nat
  ∨ (length (Split l SP) = 3%nat ∧ numbersParse l).

(** The line has a colon. *)
Definition hasColon (l : string) : Prop := COLON ∈ list_ascii_of_string l.

(** The text has no [%], so that [fmt] prints it as it is when it is the
    format. *)
Definition noVerb (s : string) : Prop := "%"%char ∉ list_ascii_of_string s.

(** A step that only writes: it takes no line from the server. *)
Definition writesOnly (c c' : Conn) : Prop :=
  unread c' = unread c ∧ zdata c' = zdata c ∧ reads c' = reads c.

(** An article whose last line begins with a dot. *)
Definition article : Reader :=
  mkReader ("Subject: test" ++ String LF (String LF ("." ++ String LF ""))) None.

(** An article of [n] bytes in one line that is not ended. *)
Definition articleOf (n : nat) : Reader :=
  mkReader (string_of_list_ascii (replicate n "a"%char)) None.

(** What every descriptor of a listing has. *)
Definition listedGroup (g : nntp.Group) : Prop :=
  nntp.Count g = 0 ∧ nntp.Posting g ≠ nntp.Unknown
  ∧ - 2 ^ 63 ≤ nntp.High g ≤ 2 ^ 63 - 1 ∧ - 2 ^ 63 ≤ nntp.Low g ≤ 2 ^ 63 - 1.

(** The connection [c'] with [buf'] in the writer's buffer is [c] with [buf]
    in the buffer after the bytes [s] were written, on a transport that takes
    every write: the bytes are on the transport or wait in the buffer. *)
Definition sends (c : Conn) (buf : string) (c' : Conn) (buf' : string) (s : string) : Prop :=
  quota c' = None ∧ werr c' = None ∧ unread c' = unread c
  ∧ written c' ++ buf' = (written c ++ buf) ++ s.

(** A line of text: it has no line feed and no carriage return in it. *)
Definition textLine (l : string) : Prop :=
(LF ∉ list_ascii_of_string l) ∧ (CR ∉ list_ascii_of_string l).

(** The line as it goes into a dot-terminated block: with one more dot
    when it begins with a dot. *)
Definition stuff (l : string) : string :=
  match l with
  | String c _ => if Ascii.eqb c DOT then String DOT l else l
  | EmptyString => l
  end.

(** The text of the lines, each ended by a line feed, and the block that is
    sent for it. *)
Definition unlines (ls : list string) : string :=
  foldr (fun l acc => l ++ String LF acc) "" ls.
Definition block (ls : list string) : string :=
  foldr (fun l acc => stuff l ++ CRLF ++ acc) "" ls.

(** ** Strings and numbers *)

Lemma substring_all (s : string) : substring 0 (String.length s) s = s.
Proof. induction s as [|c s IH]; simpl; [done | by rewrite IH]. Qed.

Lemma Split_nonempty (s : string) (sep : ascii) : Split s sep ≠ [].
Proof.
  induction s as [|c s IH]; simpl; [done|].
  destruct (Ascii.eqb c sep); [done|]. by destruct (Split s sep).
Qed.

(** The pieces of [Split], joined by the separator, are the string, and no
    piece has the separator in it. *)
Lemma Split_join (s : string) (sep : ascii) :
  String.concat (String sep "") (Split s sep) = s.
Proof.
  induction s as [|c s IH]; [done|]. simpl.
  pose proof (Split_nonempty s sep) as Hne.
  destruct (Ascii.eqb_spec c sep) as [->|_].
  - destruct (Split s sep) as [|p ps]; [done|].
    change (String.concat (String sep "") ("" :: p :: ps))
      with (String sep (String.concat (String sep "") (p :: ps))).
    by rewrite IH.
  - destruct (Split s sep) as [|p [|q ps]]; [done| |].
    + simpl in *. by rewrite IH.
    + change (String.concat (String sep "") (String c p :: q :: ps))
        with (String c (String.concat (String sep "") (p :: q :: ps))).
      by rewrite IH.
Qed.

Lemma Split_pieces (s : string) (sep : ascii) :
  Forall (λ p, sep ∉ list_ascii_of_string p) (Split s sep).
Proof.
  induction s as [|c s IH]; simpl.
  - repeat constructor. apply not_elem_of_nil.
  - destruct (Ascii.eqb_spec c sep) as [->|Hne].
    + constructor; [apply not_elem_of_nil | done].
    + pose proof (Split_nonempty s sep) as Hs.
      destruct (Split s sep) as [|p ps]; [done|].
      inversion IH as [|? ? Hp Hps]; subst. constructor; [|done].
      simpl. rewrite not_elem_of_cons. split; [congruence | done].
Qed.

(** [cut] finds the first separator. *)
Lemma cut_Some (s : string) (sep : ascii) (a b : string) :
  cut s sep = Some (a, b) ↔ s = a ++ String sep b ∧ sep ∉ list_ascii_of_string a.
Proof.
  revert a. induction s as [|c s IH]; intros a; simpl.
  - split; [done|]. intros [H _]. by destruct a.
  - destruct (Ascii.eqb_spec c sep) as [->|Hne].
    + split.
      * intros [= <- <-]. split; [done|]. simpl. apply not_elem_of_nil.
      * intros [H Hnot]. destruct a as [|c' a]; simpl in *.
        -- by injection H as ->.
        -- injection H as <- _. exfalso. apply Hnot. left.
    + destruct (cut s sep) as [[a' b']|] eqn:Hc; simpl.
      * split.
        -- intros [= <- <-]. destruct (proj1 (IH a') eq_refl) as [-> Hnot].
           split; [done|]. simpl. rewrite not_elem_of_cons. done.
        -- intros [H Hnot]. destruct a as [|c' a]; simpl in *.
           ++ injection H as ->. done.
           ++ injection H as <- H. rewrite not_elem_of_cons in Hnot.
              destruct Hnot as [_ Hnot].
              pose proof (proj2 (IH a) (conj H Hnot)) as E.
              by injection E as -> ->.
      * split; [done|]. intros [H Hnot]. destruct a as [|c' a]; simpl in *.
        -- injection H as ->. done.
        -- injection H as <- H. rewrite not_elem_of_cons in Hnot.
           destruct Hnot as [_ Hnot].
           by pose proof (proj2 (IH a) (conj H Hnot)).
Qed.

Lemma cut_None (s : string) (sep : ascii) :
  cut s sep = None ↔ sep ∉ list_ascii_of_string s.
Proof.
  induction s as [|c s IH]; simpl.
  - split; [intros _; apply not_elem_of_nil | done].
  - rewrite not_elem_of_cons. destruct (Ascii.eqb_spec c sep) as [->|Hne].
    + split; [done | intros [H _]; done].
    + destruct (cut s sep) as [[a b]|]; simpl.
      * split; [done|]. intros [_ H]. by apply IH in H.
      * split; [|done]. intros _. split; [congruence | by apply IH].
Qed.

Lemma digit_Some (c : ascii) (d : Z) :
  digit c = Some d → 0 ≤ d ≤ 9 ∧ c = ascii_of_nat (Z.to_nat (d + 48)).
Proof.
  unfold digit. intros H.
  destruct (48 <=? Z.of_nat (nat_of_ascii c)) eqn:H1; [|done].
  destruct (Z.of_nat (nat_of_ascii c) <=? 57) eqn:H2; [|done].
  simpl in H. injection H as <-. split; [lia|].
  replace (Z.of_nat (nat_of_ascii c) - 48 + 48) with (Z.of_nat (nat_of_ascii c)) by lia.
  by rewrite Nat2Z.id, ascii_nat_embedding.
Qed.

(** While the value is small the digit loop has no range error. *)
Lemma parseUintLoop_step (c : ascii) (r : string) (n : Z) :
  0 ≤ n < 10 ^ 17 →
  parseUintLoop (String c r) n =
    match digit c with
    | None => (0, Some ErrSyntax)
    | Some d => parseUintLoop r (n * 10 + d)
    end.
Proof.
  intros Hn. simpl. destruct (digit c) as [d|] eqn:Hd; [|done].
  apply digit_Some in Hd as [Hd _].
  change (maxUint64 `div` 10 + 1) with 1844674407370955162.
  change maxUint64 with 18446744073709551615.
  destruct (Z.leb_spec 1844674407370955162 n); [lia|].
  destruct (Z.ltb_spec 18446744073709551615 (n * 10 + d)); [lia | done].
Qed.

(** A string of three bytes that [Atoi] reads as a number of three digits
    consists of these digits. *)
Lemma Atoi_three_digits (a b c : ascii) (n : Z) :
  Atoi (String a (String b (String c ""))) = (n, None) → 100 ≤ n →
  ∃ d0 d1 d2, digit a = Some d0 ∧ digit b = Some d1 ∧ digit c = Some d2
              ∧ n = 100 * d0 + 10 * d1 + d2.
Proof.
  unfold Atoi, parseInt, ParseUint. intros H Hn.
  destruct (Ascii.eqb a "+" || Ascii.eqb a "-") eqn:Hsign.
  - exfalso. revert H.
    rewrite (parseUintLoop_step b) by lia.
    destruct (digit b) as [d1|] eqn:Hb; [|done].
    pose proof (digit_Some _ _ Hb) as [? _].
    rewrite (parseUintLoop_step c) by lia.
    destruct (digit c) as [d2|] eqn:Hc; [|done].
    pose proof (digit_Some _ _ Hc) as [? _]. simpl parseUintLoop.
    change (2 ^ 63) with 9223372036854775808.
    destruct (Ascii.eqb a "-"); simpl;
      repeat match goal with
             | |- context [Z.leb ?x ?y] => destruct (Z.leb_spec x y); simpl
             | |- context [Z.ltb ?x ?y] => destruct (Z.ltb_spec x y); simpl
             end; try done; intros [= ?]; lia.
  - apply orb_false_elim in Hsign as [_ Hneg]. rewrite Hneg in H. revert H.
    rewrite (parseUintLoop_step a) by lia.
    destruct (digit a) as [d0|] eqn:Ha; [|done].
    pose proof (digit_Some _ _ Ha) as [? _].
    rewrite (parseUintLoop_step b) by lia.
    destruct (digit b) as [d1|] eqn:Hb; [|done].
    pose proof (digit_Some _ _ Hb) as [? _].
    rewrite (parseUintLoop_step c) by lia.
    destruct (digit c) as [d2|] eqn:Hc; [|done].
    pose proof (digit_Some _ _ Hc) as [? _]. simpl parseUintLoop.
    change (2 ^ 63) with 9223372036854775808.
    simpl.
    destruct (Z.leb_spec 9223372036854775808 (((0 * 10 + d0) * 10 + d1) * 10 + d2));
      [done|].
    intros [= <-]. exists d0, d1, d2. repeat split; lia.
Qed.

(** ** Status lines *)

(** [ReadCodeLine] with a whole code takes a line only when it is that code
    in three digits, a space, and the message. *)
Lemma parseCodeLine_accepted (line : string) (expect code : Z) (msg : string) :
  100 ≤ expect < 1000 →
  parseCodeLine line expect = (code, false, msg, None) →
  ∃ a b c d0 d1 d2,
    line = String a (String b (String c (String SP msg)))
    ∧ digit a = Some d0 ∧ digit b = Some d1 ∧ digit c = Some d2
    ∧ expect = 100 * d0 + 10 * d1 + d2 ∧ code = expect.
Proof.
  intros He. unfold parseCodeLine.
  destruct line as [|a [|b [|c [|s rest]]]]; try done.
  cbn [String.length Nat.ltb Nat.leb Nat.sub orb String.get substring].
  destruct (Atoi (String a (String b (String c "")))) as [n err] eqn:HA.
  replace (String.length rest - 0)%nat with (String.length rest) by lia.
  rewrite substring_all.
  destruct (bool_decide (Some s = Some SP)) eqn:Hsp;
    destruct (bool_decide (Some s = Some "-"%char)) eqn:Hdash;
    cbn [orb negb]; try done;
    try (destruct (_ || _); [done|]; by destruct (_ || _)).
  apply bool_decide_eq_true in Hsp as [= ->].
  destruct (bool_decide (err ≠ None)) eqn:Herr; [done|].
  apply bool_decide_eq_false in Herr.
  assert (err = None) as -> by (destruct err; [by destruct Herr | done]).
  cbn [orb]. destruct (Z.ltb_spec n 100); [done|].
  destruct (Atoi_three_digits _ _ _ _ HA) as (d0 & d1 & d2 & ? & ? & ? & ->); [lia|].
  destruct (_ || _) eqn:Hm; [done|].
  intros [= <- <-].
  assert (100 * d0 + 10 * d1 + d2 = expect) as Hcode.
  { destruct (Z.eqb_spec (100 * d0 + 10 * d1 + d2) expect); [done|].
    exfalso. revert Hm.
    destruct (Z.leb_spec 1 expect), (Z.ltb_spec expect 10),
      (Z.leb_spec 10 expect), (Z.ltb_spec expect 100),
      (Z.leb_spec 100 expect), (Z.ltb_spec expect 1000); simpl; try done; lia. }
  exists a, b, c, d0, d1, d2. by rewrite Hcode.
Qed.

Lemma ReadLine_cons (c : Conn) (l : string) (r : list string) :
  unread c = l :: r →
  ReadLine c = Ret ((l, None), mkConn r (quota c) (werr c) (zdata c) (log c ++ [EvRead l])).
Proof. unfold ReadLine. by intros ->. Qed.

(** [ReadCodeLine] always returns, and it takes at most one line. *)
Lemma ReadCodeLine_total (expect : Z) (c : Conn) :
  ∃ code msg err c', ReadCodeLine expect c = Ret ((code, msg, err), c')
    ∧ quota c' = quota c ∧ werr c' = werr c ∧ zdata c' = zdata c
    ∧ ((unread c = [] ∧ c' = c ∧ err = Some EOF)
       ∨ ∃ l, unread c = l :: unread c' ∧ log c' = (log c ++ [EvRead l])%list).
Proof.
  unfold ReadCodeLine, mbind, M_bind, ReadLine.
  destruct (unread c) as [|l r] eqn:Hu.
  - exists 0, "", (Some EOF), c. split; [done|]. repeat split; try done. by left.
  - destruct (parseCodeLine l expect) as [[[code continued] msg] err].
    destruct (bool_decide (err = None) && continued); eexists _, _, _, _;
      (split; [reflexivity|]); simpl; repeat split; try done; right; by exists l.
Qed.

Lemma parseCodeLine_exact (a b c : ascii) (msg : string) (n : Z) :
  Atoi (String a (String b (String c ""))) = (n, None) → 100 ≤ n < 1000 →
  parseCodeLine (String a (String b (String c (String SP msg)))) n = (n, false, msg, None).
Proof.
  intros HA Hn. unfold parseCodeLine.
  cbn [String.length Nat.ltb Nat.leb Nat.sub orb String.get substring].
  rewrite HA. replace (String.length msg - 0)%nat with (String.length msg) by lia.
  rewrite substring_all, bool_decide_eq_true_2 by done. cbn [orb negb].
  rewrite (bool_decide_eq_false_2 (Some SP = Some "-"%char)) by done.
  rewrite (bool_decide_eq_false_2 (None ≠ None)) by (by intros []).
  cbn [orb]. destruct (Z.ltb_spec n 100); [lia|].
  rewrite Z.eqb_refl.
  destruct (Z.leb_spec 1 n), (Z.ltb_spec n 10), (Z.leb_spec 10 n), (Z.ltb_spec n 100);
    simpl; try lia; by rewrite ?andb_false_r.
Qed.

Lemma ReadCodeLine_exact (a b c : ascii) (msg : string) (n : Z) (cn : Conn) (rest : list string) :
  Atoi (String a (String b (String c ""))) = (n, None) → 100 ≤ n < 1000 →
  unread cn = String a (String b (String c (String SP msg))) :: rest →
  ReadCodeLine n cn =
    Ret ((n, msg, None),
         mkConn rest (quota cn) (werr cn) (zdata cn)
           (log cn ++ [EvRead (String a (String b (String c (String SP msg))))])).
Proof.
  intros HA Hn Hu. unfold ReadCodeLine, mbind, M_bind.
  rewrite (ReadLine_cons _ _ _ Hu), (parseCodeLine_exact _ _ _ _ _ HA Hn). done.
Qed.

(** A line that is not the expected code, a space and a message is refused
    with an error. *)
Lemma ReadCodeLine_refused (expect : Z) (cn : Conn) (code : Z) (msg : string) (cn' : Conn) :
  100 ≤ expect < 1000 →
  ReadCodeLine expect cn = Ret ((code, msg, None), cn') →
  ∃ a b c d0 d1 d2,
    unread cn = String a (String b (String c (String SP msg))) :: unread cn'
    ∧ digit a = Some d0 ∧ digit b = Some d1 ∧ digit c = Some d2
    ∧ expect = 100 * d0 + 10 * d1 + d2 ∧ code = expect.
Proof.
  intros He. unfold ReadCodeLine, mbind, M_bind, ReadLine.
  destruct (unread cn) as [|l r]; [done|].
  destruct (parseCodeLine l expect) as [[[code' continued] msg'] err] eqn:Hp.
  destruct err as [e|]; simpl.
  { by intros [=]. }
  destruct continued; simpl; [done|].
  intros [= -> -> <-]. simpl.
  destruct (parseCodeLine_accepted _ _ _ _ He Hp) as (a & b & c & d0 & d1 & d2 & -> & ?).
  by exists a, b, c, d0, d1, d2.
Qed.

(** ** Writes *)

Lemma write_total (b : string) (c : Conn) :
  ∃ err c', write b c = Ret (err, c')
    ∧ unread c' = unread c ∧ zdata c' = zdata c ∧ reads c' = reads c
    ∧ (err = None → werr c = None ∧ werr c' = None ∧ log c' = (log c ++ [EvWrite b])%list).
Proof.
  unfold write. destruct (werr c) as [e|] eqn:Hw.
  - exists (Some e), c. by repeat split.
  - destruct (quota c) as [q|].
    + destruct (_ <=? _)%nat; eexists _, _; (split; [reflexivity|]); simpl;
        unfold reads; simpl; rewrite omap_app; simpl; rewrite app_nil_r;
        repeat split; done.
    + eexists _, _; (split; [reflexivity|]); simpl.
      unfold reads; simpl; rewrite omap_app; simpl; rewrite app_nil_r.
      by repeat split.
Qed.

Lemma PrintfLine_ok (line : string) (c c' : Conn) :
  PrintfLine line c = Ret (None, c') →
  unread c' = unread c ∧ zdata c' = zdata c ∧ werr c' = None
  ∧ log c' = (log c ++ [EvWrite (line ++ CRLF)])%list.
Proof.
  unfold PrintfLine. intros H.
  destruct (write_total (line ++ CRLF) c) as (err & c1 & Hw & ? & ? & ? & Hok).
  rewrite Hw in H. injection H as -> ->. destruct (Hok eq_refl) as (? & ? & ?). done.
Qed.

(** ** Dot-terminated blocks *)

Lemma dotLines_block (raw rest v : list string) (n : nat) :
  "." ∉ raw →
  dotLines (raw ++ "." :: rest) v n
  = ((v ++ (unstuff <$> raw))%list, None, (n + S (length raw))%nat).
Proof.
  revert v n. induction raw as [|l raw IH]; intros v n Hdot; simpl.
  - rewrite app_nil_r. f_equal; try done; lia.
  - apply not_elem_of_cons in Hdot as [Hl Hdot].
    destruct l as [|a l].
    + rewrite IH by done. rewrite <- app_assoc. simpl. f_equal; try done; lia.
    + destruct (Ascii.eqb_spec a DOT) as [->|Ha].
      * destruct l as [|b l]; [done|].
        rewrite IH by done. rewrite <- app_assoc. simpl. f_equal; try done; lia.
      * rewrite IH by done. rewrite <- app_assoc. simpl.
        rewrite (proj2 (Ascii.eqb_neq a DOT)) by done. f_equal; try done; lia.
Qed.

Lemma takeLines_block (c : Conn) (raw rest : list string) :
  unread c = (raw ++ "." :: rest)%list →
  unread (takeLines (S (length raw)) c) = rest.
Proof.
  intros Hu. unfold takeLines; simpl. rewrite Hu.
  replace (S (length raw)) with (length raw + 1)%nat by lia.
  by rewrite drop_app_add.
Qed.

Lemma ReadDotLines_block (c : Conn) (raw rest : list string) :
  unread c = (raw ++ "." :: rest)%list → "." ∉ raw →
  ReadDotLines c = Ret ((unstuff <$> raw, None), takeLines (S (length raw)) c).
Proof.
  intros Hu Hdot. unfold ReadDotLines. by rewrite Hu, dotLines_block.
Qed.

(** ** GROUP *)

(** With four fields of which the first three are numbers, the descriptor
    holds the parsed values. *)
Lemma GroupParse_four_fields (msg a b c d : string) (count low high : Z) :
  Split msg SP = [a; b; c; d] →
  ParseInt a = (count, None) → ParseInt b = (low, None) → ParseInt c = (high, None) →
  GroupParse msg = Ret (nntp.mkGroup d count high low nntp.Unknown, None).
Proof.
  intros Hs Ha Hb Hc. unfold GroupParse. rewrite Hs. simpl.
  rewrite Ha. simpl. rewrite Hb. simpl. rewrite Hc. done.
Qed.

(** With more than four fields the error that [GroupParse] prepares is
    lost: it returns the descriptor of the first four and no error. *)
Lemma GroupParse_more_fields (msg a b c d e : string) (more : list string)
    (count low high : Z) :
  Split msg SP = a :: b :: c :: d :: e :: more →
  ParseInt a = (count, None) → ParseInt b = (low, None) → ParseInt c = (high, None) →
  GroupParse msg = Ret (nntp.mkGroup d count high low nntp.Unknown, None).
Proof.
  intros Hs Ha Hb Hc. unfold GroupParse. rewrite Hs. simpl.
  rewrite Ha. simpl. rewrite Hb. simpl. rewrite Hc. done.
Qed.

(** With three numbers and no name, the index of the name is out of
    range. *)
Lemma GroupParse_three_fields (msg a b c : string) (count low high : Z) :
  Split msg SP = [a; b; c] →
  ParseInt a = (count, None) → ParseInt b = (low, None) → ParseInt c = (high, None) →
  GroupParse msg = Panic (IndexOutOfRange 3 3).
Proof.
  intros Hs Ha Hb Hc. unfold GroupParse. rewrite Hs. simpl.
  rewrite Ha. simpl. rewrite Hb. simpl. rewrite Hc. done.
Qed.

Lemma Group_answer (name msg : string) (c c1 : Conn) (rest : list string) :
  PrintfLine ("GROUP " ++ name) c = Ret (None, c1) →
  unread c = ("211 " ++ msg) :: rest →
  value (Group name c) = GroupParse msg.
Proof.
  intros Hw Hu. unfold Group, Command, mbind, M_bind. rewrite Hw.
  destruct (PrintfLine_ok _ _ _ Hw) as (Hu1 & _). rewrite Hu in Hu1.
  rewrite (ReadCodeLine_exact "2" "1" "1" msg 211 c1 rest) by done.
  unfold lift. by destruct (GroupParse msg).
Qed.

(** C1 (GROUP, the number of fields): the specification has [Group] return
    an error that describes the text whenever the message of the 211 line does
    not split into exactly four fields.  The code prepares that error and then
    goes on: on five fields it returns the descriptor of the first four and
    no error, and on three numeric fields it panics on the index of the name.
    With exactly four fields it returns the parsed values
    ([GroupParse_four_fields]). *)
Theorem Group_field_count_not_enforced :
  value (Group "misc.test" (serverSends ["211 10 1 10 misc.test extra"]))
  = Ret (nntp.mkGroup "misc.test" 10 10 1 nntp.Unknown, None)
  ∧ value (Group "misc.test" (serverSends ["211 10 1 10"]))
    = Panic (IndexOutOfRange 3 3)
  ∧ value (Group "misc.test" (serverSends ["211 10 1 10 misc.test"]))
    = Ret (nntp.mkGroup "misc.test" 10 10 1 nntp.Unknown, None).
Proof. repeat split; by vm_compute. Qed.

(** ** The greeting *)

Lemma New_dial_failure (Dial : Network) (net addr : string) (e : error) :
  Dial net addr = inl e → New Dial net addr = Ret (None, Some e).
Proof. unfold New. by intros ->. Qed.

(** C2, as the specification states it, fails: 201 is a code of class 2 (a reader that
    expects the class, [ReadCodeLine(2)], takes the line), and [New], which
    expects 200, refuses a greeting with it. *)
Lemma New_refuses_201 :
  let greeting := "201 server ready - no posting allowed" in
  parseCodeLine greeting 2 = (201, false, "server ready - no posting allowed", None)
  ∧ New (fun _ _ => inr (serverSends [greeting])) "tcp" "news.example.org:119"
    = Ret (None, Some (Error 201 "server ready - no posting allowed")).
Proof. split; [by vm_compute | by vm_compute]. Qed.

(** C2, amended: [New] succeeds exactly on a greeting line that is the code
    200, a space and a text, and then keeps the text as the banner; a failure
    of the dial is returned as it is, and any other greeting, or none, is an
    error. *)
Theorem New_greeting (Dial : Network) (net addr : string) :
  (∀ e, Dial net addr = inl e → New Dial net addr = Ret (None, Some e))
  ∧ (∀ cn msg rest, Dial net addr = inr cn → unread cn = ("200 " ++ msg) :: rest →
       ∃ cn', New Dial net addr = Ret (Some (mkClient cn' msg), None)
              ∧ unread cn' = rest)
  ∧ (∀ cn, Dial net addr = inr cn →
       (∀ msg rest, unread cn ≠ ("200 " ++ msg) :: rest) →
       ∃ e, New Dial net addr = Ret (None, Some e)).
Proof.
  split; [apply New_dial_failure|]. split.
  - intros cn msg rest Hd Hu. unfold New. rewrite Hd. simpl.
    rewrite (ReadCodeLine_exact "2" "0" "0" msg 200 cn rest) by done.
    eexists. split; [reflexivity | done].
  - intros cn Hd Hno. unfold New. rewrite Hd. simpl.
    destruct (ReadCodeLine_total 200 cn) as (code & msg & err & cn' & Hr & _).
    rewrite Hr. destruct err as [e|]; [by exists e|].
    exfalso.
    destruct (ReadCodeLine_refused 200 cn code msg cn') as
      (a & b & c & d0 & d1 & d2 & Hu & Ha & Hb & Hc & Hsum & _); [lia | done |].
    apply digit_Some in Ha as [? ->], Hb as [? ->], Hc as [? ->].
    assert (d0 = 2 ∧ d1 = 0 ∧ d2 = 0) as (-> & -> & ->) by lia.
    by apply (Hno msg (unread cn')).
Qed.

Lemma New_greeting_witness :
  ∃ cn', New (fun _ _ => inr (serverSends ["200 server ready"])) "tcp" "news.example.org:119"
         = Ret (Some (mkClient cn' "server ready"), None)
         ∧ unread cn' = [].
Proof.
  apply (proj1 (proj2 (New_greeting (fun _ _ => inr (serverSends ["200 server ready"]))
                         "tcp" "news.example.org:119"))
           (serverSends ["200 server ready"]) "server ready" []); reflexivity.
Defined.

(** ** ARTICLE, HEAD and BODY *)

Lemma SplitN2_one (s : string) (sep : ascii) :
  sep ∉ list_ascii_of_string s → SplitN2 s sep = [s].
Proof. intros H. unfold SplitN2. by rewrite (proj2 (cut_None s sep) H). Qed.

Lemma SplitN2_two (a b : string) (sep : ascii) :
  sep ∉ list_ascii_of_string a → SplitN2 (a ++ String sep b) sep = [a; b].
Proof. intros H. unfold SplitN2. by rewrite (proj2 (cut_Some _ sep a b) (conj eq_refl H)). Qed.

(** [articleish] on a status line of the expected code. *)
Lemma articleish_answer (a b c : ascii) (expected : Z) (msg : string) (cn : Conn)
    (rest : list string) :
  Atoi (String a (String b (String c ""))) = (expected, None) → 100 ≤ expected < 1000 →
  unread cn = String a (String b (String c (String SP msg))) :: rest →
  (∀ p t, msg = p ∨ msg = p ++ String SP t → SP ∉ list_ascii_of_string p →
     (ParseInt p).2 ≠ None →
     ∃ e cn', articleish expected cn = Ret ((0, "", None, Some e), cn'))
  ∧ (∀ p t n, msg = p ++ String SP t → SP ∉ list_ascii_of_string p →
       ParseInt p = (n, None) →
       ∃ cn', articleish expected cn = Ret ((n, t, Some connDotReader, None), cn')
              ∧ unread cn' = rest).
Proof.
  intros HA He Hu. unfold articleish, mbind, M_bind.
  rewrite (ReadCodeLine_exact a b c msg expected cn rest HA He Hu). split.
  - intros p t Hmsg Hp Herr.
    assert (∃ ps, SplitN2 msg SP = p :: ps) as [ps ->].
    { destruct Hmsg as [->| ->]; [rewrite SplitN2_one | rewrite SplitN2_two]; eauto. }
    simpl. destruct (ParseInt p) as [n [e|]]; [|done]. by eexists _, _.
  - intros p t n -> Hp Hn. rewrite SplitN2_two by done. simpl. rewrite Hn.
    by eexists.
Qed.

(** C5, as the specification states it, fails: a status message that is a number and
    nothing else cannot be split in two, and [Article] does not return an
    error on it: the index of the second part is out of range. *)
Lemma Article_number_only_panics :
  SplitN2 "3000234" SP = ["3000234"]
  ∧ value (Article "3000234" (serverSends ["220 3000234"])) = Panic (IndexOutOfRange 1 1).
Proof. split; by vm_compute. Qed.

(** C5, amended: for each of [Article], [Head] and [Body], after the status
    line of its code (220, 221, 222), a status message whose first part (the
    text before the first space, or all of it) is no integer is an ordinary
    error return, and a message that is a number, a space and a text gives the
    number and the text. *)
Theorem articleish_malformed_number (op : string → M (Z * string * option ioReader * option error))
    (verb status specifier msg : string) (cn cn1 : Conn) (rest : list string) :
  (op, verb, status) ∈ [(Article, "ARTICLE ", "220 "); (Head, "HEAD ", "221 ");
                         (Body, "BODY ", "222 ")] →
  PrintfLine (verb ++ specifier) cn = Ret (None, cn1) →
  unread cn = (status ++ msg) :: rest →
  (∀ p t, msg = p ∨ msg = p ++ String SP t → SP ∉ list_ascii_of_string p →
     (ParseInt p).2 ≠ None →
     ∃ e cn', op specifier cn = Ret ((0, "", None, Some e), cn'))
  ∧ (∀ p t n, msg = p ++ String SP t → SP ∉ list_ascii_of_string p →
       ParseInt p = (n, None) →
       ∃ cn', op specifier cn = Ret ((n, t, Some connDotReader, None), cn')
              ∧ unread cn' = rest).
Proof.
  intros Hop Hw Hu. destruct (PrintfLine_ok _ _ _ Hw) as (Hu1 & _). rewrite Hu in Hu1.
  rewrite !elem_of_cons, elem_of_nil in Hop.
  destruct Hop as [[= -> -> ->]|[[= -> -> ->]|[[= -> -> ->]|[]]]].
  - unfold Article, mbind, M_bind. rewrite Hw.
    by apply (articleish_answer "2" "2" "0" 220 msg cn1 rest).
  - unfold Head, mbind, M_bind. rewrite Hw.
    by apply (articleish_answer "2" "2" "1" 221 msg cn1 rest).
  - unfold Body, mbind, M_bind. rewrite Hw.
    by apply (articleish_answer "2" "2" "2" 222 msg cn1 rest).
Qed.

Lemma articleish_malformed_number_witness :
  ∃ e cn', Head "<a@example.org>" (serverSends ["221 x12 <a@example.org>"])
           = Ret ((0, "", None, Some e), cn').
Proof.
  apply (proj1 (articleish_malformed_number Head "HEAD " "221 " "<a@example.org>"
                  "x12 <a@example.org>" (serverSends ["221 x12 <a@example.org>"])
                  (mkConn ["221 x12 <a@example.org>"] None None (inl ErrZlib)
                     [EvWrite ("HEAD <a@example.org>" ++ CRLF)])
                  [] ltac:(right; left) eq_refl eq_refl)
           "x12" "<a@example.org>").
  - by right.
  - compute_done.
  - by vm_compute.
Defined.

(** ** LIST *)

Lemma ListBody_cases (rv : list nntp.Group) (l : string) :
  (listed l ∧ ListBody rv l = Ret (rv ++ option_list (ListEntry l))%list)
  ∨ (fatal l ∧ ∃ i, ListBody rv l = Panic (IndexOutOfRange i (length (Split l SP)))
                    ∧ (length (Split l SP) ≤ i < 4)%nat).
Proof.
  unfold ListBody, ListEntry, listed, fatal, numbersParse.
  pose proof (Split_nonempty l SP) as Hne.
  destruct (Split l SP) as [|p0 [|p1 [|p2 [|p3 more]]]]; [done| | | |]; simpl.
  - right. split; [left; lia|]. exists 1%nat. split; [done | lia].
  - right. split; [left; lia|]. exists 2%nat.
    split; [by destruct (ParseInt p1) | lia].
  - destruct (ParseInt p1) as [h [eh|]] eqn:H1; simpl.
    + left. rewrite app_nil_r.
      split; [|by destruct (ParseInt p2)]. right. split; [done|].
      intros (? & ? & ? & ? & ? & ? & [= <- <- <- <-] & ? & ?). congruence.
    + destruct (ParseInt p2) as [lo [el|]] eqn:H2; simpl.
      * left. rewrite app_nil_r. split; [|done]. right. split; [done|].
        intros (? & ? & ? & ? & ? & ? & [= <- <- <- <-] & ? & ?). congruence.
      * right. split; [|exists 3%nat; split; [done | lia]].
        right. split; [done|]. by exists p0, p1, p2, [], h, lo.
  - left. split; [left; lia|].
    destruct (ParseInt p1) as [h [eh|]]; destruct (ParseInt p2) as [lo [el|]]; simpl;
      by rewrite ?app_nil_r.
Qed.

Lemma forRange_ListBody_listed (ls : list string) (rv : list nntp.Group) :
  Forall listed ls →
  forRange ListBody ls rv = Ret (rv ++ omap ListEntry ls)%list.
Proof.
  intros H. revert rv. induction H as [|l ls Hl _ IH]; intros rv; simpl.
  - by rewrite app_nil_r.
  - destruct (ListBody_cases rv l) as [[_ ->]|[Hf _]].
    + simpl. rewrite IH, <- app_assoc. by destruct (ListEntry l).
    + exfalso. destruct Hl as [?|[? ?]], Hf as [?|[? ?]]; try lia. done.
Qed.

Lemma forRange_ListBody_fatal (ls : list string) (rv : list nntp.Group) (l : string) :
  l ∈ ls → fatal l →
  ∃ i n, forRange ListBody ls rv = Panic (IndexOutOfRange i n) ∧ (n ≤ i < 4)%nat.
Proof.
  intros Hin Hf. revert rv. induction ls as [|x ls IH]; intros rv.
  - by apply elem_of_nil in Hin.
  - simpl. destruct (ListBody_cases rv x) as [[Hx ->]|[_ (i & -> & ?)]].
    + simpl. apply elem_of_cons in Hin as [->|Hin]; [|by apply IH].
      exfalso. destruct Hx as [?|[? ?]], Hf as [?|[? ?]]; try lia. done.
    + simpl. by exists i, (length (Split x SP)).
Qed.

(** [List] up to its loop, on an answer of code 215 and a closed block. *)
Lemma List_answer (sub msg : string) (c c1 : Conn) (raw rest : list string) :
  PrintfLine ("LIST " ++ sub) c = Ret (None, c1) →
  unread c = ("215 " ++ msg) :: (raw ++ "." :: rest)%list → "." ∉ raw →
  ∃ c2, unread c2 = rest
    ∧ List sub c = match forRange ListBody (unstuff <$> raw) [] with
                   | Ret rv => Ret ((rv, None), c2)
                   | Panic p => Panic p
                   end.
Proof.
  intros Hw Hu Hdot. unfold List, Command, mbind, M_bind. rewrite Hw.
  destruct (PrintfLine_ok _ _ _ Hw) as (Hu1 & _). rewrite Hu in Hu1.
  rewrite (ReadCodeLine_exact "2" "1" "5" msg 215 c1 _) by done.
  erewrite ReadDotLines_block by done.
  eexists. split; [|unfold lift; by destruct (forRange _ _ _)].
  by apply takeLines_block.
Qed.

(** C6, as the specification states it, fails: a line of three fields whose numbers
    parse is not returned, and it aborts the listing, with the valid line
    before it. *)
Lemma List_line_without_flag_aborts :
  ParseInt "5" = (5, None) ∧ ParseInt "1" = (1, None)
  ∧ value (List "" (serverSends ["215 list of newsgroups follows";
                                 "misc.test 10 1 y"; "misc.short 5 1"; "."]))
    = Panic (IndexOutOfRange 3 3).
Proof. repeat split; by vm_compute. Qed.

(** C6, amended: for every LIST response block whose lines each have at
    least four fields, or three of which the high or low field is no integer,
    the lines whose high or low field fails to parse are left out without
    error, and all the other lines are returned, in order, as descriptors of
    name, high, low and posting flag. *)
Theorem List_keeps_parsed_lines (sub msg : string) (c c1 : Conn) (raw rest : list string) :
  PrintfLine ("LIST " ++ sub) c = Ret (None, c1) →
  unread c = ("215 " ++ msg) :: (raw ++ "." :: rest)%list → "." ∉ raw →
  Forall listed (unstuff <$> raw) →
  ∃ c2, List sub c = Ret ((omap ListEntry (unstuff <$> raw), None), c2)
        ∧ unread c2 = rest.
Proof.
  intros Hw Hu Hdot Hl.
  destruct (List_answer sub msg c c1 raw rest Hw Hu Hdot) as (c2 & Hr & ->).
  rewrite forRange_ListBody_listed by done. by exists c2.
Qed.

Lemma List_keeps_parsed_lines_witness :
  ∃ c2, List "misc.*" (serverSends ["215 list of newsgroups follows"; "misc.test 10 1 y";
                                    "misc.bad x 1 y"; "misc.mod 7 3 m"; "."])
        = Ret ((omap ListEntry ["misc.test 10 1 y"; "misc.bad x 1 y"; "misc.mod 7 3 m"],
                None), c2)
        ∧ unread c2 = [].
Proof.
  apply (List_keeps_parsed_lines "misc.*" "list of newsgroups follows"
           (serverSends ["215 list of newsgroups follows"; "misc.test 10 1 y";
                         "misc.bad x 1 y"; "misc.mod 7 3 m"; "."])
           (mkConn ["215 list of newsgroups follows"; "misc.test 10 1 y";
                    "misc.bad x 1 y"; "misc.mod 7 3 m"; "."] None None (inl ErrZlib)
              [EvWrite ("LIST misc.*" ++ CRLF)])
           ["misc.test 10 1 y"; "misc.bad x 1 y"; "misc.mod 7 3 m"] []).
  - reflexivity.
  - reflexivity.
  - compute_done.
  - repeat constructor; left; vm_compute; lia.
Defined.

(** C9, as the specification states it, fails: a line of three fields has fewer than
    four, and when its numbers do not parse [List] skips it and returns. *)
Lemma List_three_fields_skipped :
  length (Split "misc.test high low" SP) = 3%nat
  ∧ value (List "" (serverSends ["215 list of newsgroups follows"; "misc.test high low"; "."]))
    = Ret ([], None).
Proof. split; by vm_compute. Qed.

(** C9, amended: for every LIST response line with fewer than three fields,
    or with three fields of which the high and low both parse, [List] indexes
    the split result out of range: it panics, and neither skips the line nor
    returns an error. *)
Theorem List_short_line_panics (sub msg : string) (c c1 : Conn) (raw rest : list string)
    (l : string) :
  PrintfLine ("LIST " ++ sub) c = Ret (None, c1) →
  unread c = ("215 " ++ msg) :: (raw ++ "." :: rest)%list → "." ∉ raw →
  l ∈ unstuff <$> raw → fatal l →
  ∃ i n, List sub c = Panic (IndexOutOfRange i n) ∧ (n ≤ i < 4)%nat.
Proof.
  intros Hw Hu Hdot Hin Hf.
  destruct (List_answer sub msg c c1 raw rest Hw Hu Hdot) as (c2 & _ & ->).
  destruct (forRange_ListBody_fatal _ [] l Hin Hf) as (i & n & -> & ?).
  by exists i, n.
Qed.

Lemma List_short_line_panics_witness :
  ∃ i n, List "" (serverSends ["215 list of newsgroups follows"; "misc.test 10 1 y"; ""; "."])
         = Panic (IndexOutOfRange i n) ∧ (n ≤ i < 4)%nat.
Proof.
  apply (List_short_line_panics "" "list of newsgroups follows"
           (serverSends ["215 list of newsgroups follows"; "misc.test 10 1 y"; ""; "."])
           (mkConn ["215 list of newsgroups follows"; "misc.test 10 1 y"; ""; "."]
              None None (inl ErrZlib) [EvWrite ("LIST " ++ CRLF)])
           ["misc.test 10 1 y"; ""] [] "").
  - reflexivity.
  - reflexivity.
  - compute_done.
  - right; left.
  - left. vm_compute. lia.
Defined.

(** ** XOVER: the format *)

(** [MultilineCommand] on an answer of the expected code and a closed
    block: the first of the lines it returns is the message of the status
    line, and the block follows it. *)
Lemma MultilineCommand_answer (cmd msg : string) (a b d : ascii) (code : Z)
    (c c1 : Conn) (raw rest : list string) :
  Atoi (String a (String b (String d ""))) = (code, None) → 100 ≤ code < 1000 →
  PrintfLine cmd c = Ret (None, c1) →
  unread c = String a (String b (String d (String SP msg))) :: (raw ++ "." :: rest)%list →
  "." ∉ raw →
  ∃ c2, MultilineCommand cmd code c = Ret ((code, msg :: (unstuff <$> raw), None), c2)
        ∧ unread c2 = rest ∧ quota c2 = quota c1 ∧ werr c2 = None ∧ zdata c2 = zdata c.
Proof.
  intros HA Hc Hw Hu Hdot. unfold MultilineCommand, mbind, M_bind. rewrite Hw.
  destruct (PrintfLine_ok _ _ _ Hw) as (Hu1 & Hz & Hwerr & _). rewrite Hu in Hu1.
  rewrite (ReadCodeLine_exact a b d msg code c1 _ HA Hc Hu1).
  erewrite ReadDotLines_block by done.
  eexists. split; [reflexivity|]. split; [by apply takeLines_block | done].
Qed.

Lemma FormatBody_cases (hs : list string) (hf : gmap string bool) (l : string) :
  (∃ h f, l = h ++ String COLON f ∧ ¬ hasColon h
          ∧ FormatBody (hs, hf) l = Ret ((hs ++ [h])%list, <[h := bool_decide (f = "full")]> hf))
  ∨ (¬ hasColon l ∧ FormatBody (hs, hf) l = Panic (IndexOutOfRange 1 1)).
Proof.
  unfold FormatBody, SplitN2. destruct (cut l COLON) as [[h f]|] eqn:Hc.
  - left. exists h, f. apply cut_Some in Hc as [-> ?]. done.
  - right. by apply cut_None in Hc.
Qed.

(** The columns of a format whose lines all have their colon. *)
Lemma forRange_FormatBody_columns (ls : list string) (hs : list string) (hf : gmap string bool) :
  Forall hasColon ls →
  ∃ names hf',
    forRange FormatBody ls (hs, hf) = Ret ((hs ++ names)%list, hf')
    ∧ Forall2 (λ l h, ∃ f, l = h ++ String COLON f ∧ ¬ hasColon h) ls names.
Proof.
  intros H. revert hs hf. induction H as [|l ls Hl _ IH]; intros hs hf; cbn [forRange].
  - exists [], hf. by rewrite app_nil_r.
  - destruct (FormatBody_cases hs hf l) as [(h & f & -> & Hh & ->)|[Hno _]]; [|done].
    simpl. destruct (IH (hs ++ [h])%list (<[h := bool_decide (f = "full")]> hf))
      as (names & hf' & -> & HF).
    exists (h :: names), hf'. rewrite <- app_assoc. split; [done|].
    constructor; [by exists f | done].
Qed.

(** A line without a colon stops the loop with a panic. *)
Lemma forRange_FormatBody_no_colon (ls : list string) (st : list string * gmap string bool)
    (l : string) :
  l ∈ ls → ¬ hasColon l →
  forRange FormatBody ls st = Panic (IndexOutOfRange 1 1).
Proof.
  intros Hin Hl. revert st. induction ls as [|x ls IH]; intros [hs hf].
  - by apply elem_of_nil in Hin.
  - cbn [forRange]. destruct (FormatBody_cases hs hf x) as [(h & f & -> & Hh & ->)|[_ ->]]; [|done].
    simpl. apply elem_of_cons in Hin as [->|Hin]; [|by apply IH].
    exfalso. apply Hl. unfold hasColon.
    clear. induction h as [|a h IH]; simpl; [left | by right].
Qed.

(** Every flag of the format comes from a line of that column, and it is
    set when the text after the first colon of that line is the word full. *)
Lemma forRange_FormatBody_flags (ls : list string) (hs hs' : list string)
    (hf hf' : gmap string bool) (seen : list string) :
  (∀ h b, hf !! h = Some b →
     ∃ l f, l ∈ seen ∧ l = h ++ String COLON f ∧ ¬ hasColon h
            ∧ b = bool_decide (f = "full")) →
  forRange FormatBody ls (hs, hf) = Ret (hs', hf') →
  ∀ h b, hf' !! h = Some b →
    ∃ l f, l ∈ (seen ++ ls)%list ∧ l = h ++ String COLON f ∧ ¬ hasColon h
           ∧ b = bool_decide (f = "full").
Proof.
  revert hs hf seen. induction ls as [|x ls IH]; intros hs hf seen Hinv; cbn [forRange].
  - intros [= <- <-]. by rewrite app_nil_r.
  - destruct (FormatBody_cases hs hf x) as [(h & f & Hx & Hh & ->)|[_ ->]]; [|done].
    simpl. intros Hrun h' b Hl.
    replace (seen ++ x :: ls)%list with ((seen ++ [x]) ++ ls)%list
      by by rewrite <- app_assoc.
    apply (IH _ _ (seen ++ [x])%list) with (b := b) (h := h') in Hrun; [done| |done].
    clear Hl h' b. intros h' b. rewrite lookup_insert.
    destruct (decide (h = h')) as [<-|Hne].
    + intros [= Hb]. exists x, f. split; [apply elem_of_app; right; left | done].
    + intros Hl. destruct (Hinv h' b Hl) as (l & f' & ? & ?).
      exists l, f'. split; [apply elem_of_app; by left | done].
Qed.

Lemma Format_lines (msg : string) (block : list string) :
  Format (msg :: block) = forRange FormatBody block (["Article"], ∅).
Proof. done. Qed.

(** C3, as the specification states it, fails: the first line of the block is a column
    like the others.  What [XOver] drops with [lines[1:]] is the first of the
    lines of [MultilineCommand], which is the message of the status line. *)
Lemma Format_keeps_first_block_line :
  let block := ["Subject:"; "From:"] in
  let c := serverSends (["215 Order of fields in overview database."] ++ block ++ ["."]) in
  ∃ c2 headerFull,
    MultilineCommand "LIST OVERVIEW.FMT" 215 c
    = Ret ((215, "Order of fields in overview database." :: block, None), c2)
    ∧ Format ("Order of fields in overview database." :: block)
      = Ret (["Article"; "Subject"; "From"], headerFull)
    ∧ ["Article"; "Subject"; "From"] ≠ ["Article"; "From"].
Proof.
  eexists _, _. split; [by vm_compute|]. split; [by vm_compute | done].
Qed.

(** C3, amended: after LIST OVERVIEW.FMT is answered with 215, the message
    of the status line is discarded, every line name:flag of the
    dot-terminated block, the first one too, defines a column, and the list
    of columns is "Article" followed by these names in the order of the
    server. *)
Theorem Format_columns (msg : string) (c c1 : Conn) (raw rest : list string) :
  PrintfLine "LIST OVERVIEW.FMT" c = Ret (None, c1) →
  unread c = ("215 " ++ msg) :: (raw ++ "." :: rest)%list → "." ∉ raw →
  Forall hasColon (unstuff <$> raw) →
  ∃ c2 names headerFull,
    MultilineCommand "LIST OVERVIEW.FMT" 215 c
    = Ret ((215, msg :: (unstuff <$> raw), None), c2)
    ∧ Format (msg :: (unstuff <$> raw)) = Ret ("Article" :: names, headerFull)
    ∧ Forall2 (λ l h, ∃ f, l = h ++ String COLON f ∧ ¬ hasColon h) (unstuff <$> raw) names.
Proof.
  intros Hw Hu Hdot Hcol.
  destruct (MultilineCommand_answer "LIST OVERVIEW.FMT" msg "2" "1" "5" 215 c c1 raw rest)
    as (c2 & Hm & _); [done | lia | done..|].
  destruct (forRange_FormatBody_columns _ ["Article"] ∅ Hcol) as (names & hf & Hf & HF).
  exists c2, names, hf. by rewrite Format_lines.
Qed.

Lemma Format_columns_witness :
  ∃ c2 names headerFull,
    MultilineCommand "LIST OVERVIEW.FMT" 215
      (serverSends ["215 Order of fields in overview database."; "Subject:"; "Xref:full"; "."])
    = Ret ((215, "Order of fields in overview database." :: (unstuff <$> ["Subject:"; "Xref:full"]),
            None), c2)
    ∧ Format ("Order of fields in overview database." :: (unstuff <$> ["Subject:"; "Xref:full"]))
      = Ret ("Article" :: names, headerFull)
    ∧ Forall2 (λ l h, ∃ f, l = h ++ String COLON f ∧ ¬ hasColon h)
        (unstuff <$> ["Subject:"; "Xref:full"]) names.
Proof.
  apply (Format_columns "Order of fields in overview database."
           (serverSends ["215 Order of fields in overview database."; "Subject:"; "Xref:full"; "."])
           (mkConn ["215 Order of fields in overview database."; "Subject:"; "Xref:full"; "."]
              None None (inl ErrZlib) [EvWrite ("LIST OVERVIEW.FMT" ++ CRLF)])
           ["Subject:"; "Xref:full"] []).
  - reflexivity.
  - reflexivity.
  - compute_done.
  - repeat constructor; compute_done.
Defined.

(** C10: when a line of the block of LIST OVERVIEW.FMT (the lines after the
    first of those that [MultilineCommand] returns) has no colon, [XOver]
    indexes the second part of a split that has one: it panics, and returns
    no error.  And a column is flagged full only when a line of the block is
    its name, the first colon, and the word full. *)
Theorem XOver_format_line_without_colon (specifier msg : string) (compress : bool)
    (c c1 : Conn) (raw rest : list string) :
  PrintfLine "LIST OVERVIEW.FMT" c = Ret (None, c1) →
  unread c = ("215 " ++ msg) :: (raw ++ "." :: rest)%list → "." ∉ raw →
  (∀ l, l ∈ unstuff <$> raw → ¬ hasColon l →
     XOver specifier compress c = Panic (IndexOutOfRange 1 1))
  ∧ (∀ headers headerFull h,
       Format (msg :: (unstuff <$> raw)) = Ret (headers, headerFull) →
       headerFull !! h = Some true →
       ∃ l, l ∈ unstuff <$> raw ∧ l = h ++ String COLON "full" ∧ ¬ hasColon h).
Proof.
  intros Hw Hu Hdot.
  destruct (MultilineCommand_answer "LIST OVERVIEW.FMT" msg "2" "1" "5" 215 c c1 raw rest)
    as (c2 & Hm & _); [done | lia | done..|].
  split.
  - intros l Hin Hl. unfold XOver, mbind at 1, M_bind. rewrite Hm.
    unfold mbind, M_bind, lift. rewrite Format_lines.
    by rewrite (forRange_FormatBody_no_colon _ _ l Hin Hl).
  - intros headers headerFull h Hf Hh. rewrite Format_lines in Hf.
    assert (∀ h b, (∅ : gmap string bool) !! h = Some b →
              ∃ l f, l ∈ ([] : list string) ∧ l = h ++ String COLON f ∧ ¬ hasColon h
                     ∧ b = bool_decide (f = "full")) as Hinv
      by (intros ? ?; by rewrite lookup_empty).
    destruct (forRange_FormatBody_flags _ _ _ _ _ [] Hinv Hf h true Hh)
      as (l & f & Hin & -> & Hnot & Hb).
    exists (h ++ String COLON f). split; [done|]. split; [|done].
    symmetry in Hb. apply bool_decide_eq_true in Hb. by rewrite Hb.
Qed.

Lemma XOver_format_line_without_colon_witness :
  XOver "1-100" false
    (serverSends ["215 Order of fields in overview database."; "Subject:full"; "Bytes"; "."])
  = Panic (IndexOutOfRange 1 1).
Proof.
  apply (proj1 (XOver_format_line_without_colon "1-100" "Order of fields in overview database."
                  false
                  (serverSends ["215 Order of fields in overview database."; "Subject:full";
                                "Bytes"; "."])
                  (mkConn ["215 Order of fields in overview database."; "Subject:full";
                           "Bytes"; "."] None None (inl ErrZlib)
                     [EvWrite ("LIST OVERVIEW.FMT" ++ CRLF)])
                  ["Subject:full"; "Bytes"] [] eq_refl eq_refl ltac:(compute_done))
           "Bytes").
  - right; left.
  - compute_done.
Defined.

(** ** XOVER: the records *)

(** C8: with the columns Article, Subject (full) and Bytes, which [Format]
    gets from the lines Subject:full and Bytes:, the line of the fields 1,
    subj:hello and 100, separated by tabs, is decoded into the record that
    maps Article to 1, Subject to hello and Bytes to 100. *)
Theorem Decode_subject_full :
  let line := "1" ++ String TAB ("subj:hello" ++ String TAB "100") in
  Format ["Order of fields in overview database."; "Subject:full"; "Bytes:"]
  = Ret (["Article"; "Subject"; "Bytes"], {[ "Subject" := true; "Bytes" := false ]})
  ∧ Decode ["Article"; "Subject"; "Bytes"] {[ "Subject" := true; "Bytes" := false ]} line
    = Ret (mkOverview {[ "Article" := ["1"]; "Subject" := ["hello"]; "Bytes" := ["100"] ]}
             None).
Proof. split; by vm_compute. Qed.

Lemma index_lookup {A} (a : list A) (i : nat) (x : A) :
  a !! i = Some x → index a i = Ret x.
Proof. unfold index. by intros ->. Qed.

(** C4, as the specification states it, fails: on a line with more fields than there
    are columns the goroutine indexes the columns out of range.  The stream
    is aborted there: the record of the line before is all that was sent, and
    the line after is not decoded. *)
Lemma XOver_extra_field_aborts :
  let line1 := "1" ++ String TAB ("hello" ++ String TAB "100") in
  let line2 := "2" ++ String TAB ("again" ++ String TAB ("200" ++ String TAB "extra")) in
  let line3 := "3" ++ String TAB ("bye" ++ String TAB "300") in
  let c := serverSends ["215 Order of fields in overview database."; "Subject:"; "Bytes:"; ".";
                        "224 Overview information follows"; line1; line2; line3; "."] in
  length (Split line2 TAB) = 4%nat
  ∧ ∃ o1, value (XOver "1-3" false c)
          = Ret (Some (mkChan [o1] (Crashed (IndexOutOfRange 3 3))), None).
Proof. split; [by vm_compute|]. eexists. by vm_compute. Qed.

Section Records.

(** The format that the goroutine works with. *)
Context (headers : list string) (headerFull : gmap string bool).

(** The line fits the scanner and is decoded into the record [o]. *)
Definition decodes (l : string) (o : Overview) : Prop :=
  Z.of_nat (String.length l) < MaxScanTokenSize ∧ Decode headers headerFull l = Ret o.

(** The fields of a line that has no more of them than there are columns
    left, and a colon in each field of a full column: the record gets the
    columns of these fields, and no other. *)
Lemma DecodeFields_short (fields : list string) (i : nat) (o : MIMEHeader) :
  (i + length fields ≤ length headers)%nat →
  (∀ j val h, fields !! j = Some val → headers !! (i + j)%nat = Some h →
     headerFull !! h = Some true → hasColon val) →
  ∃ o', DecodeFields headers headerFull fields i o = Ret o'
    ∧ dom o' = dom o ∪ list_to_set (CanonicalMIMEHeaderKey <$> take (length fields) (drop i headers)).
Proof.
  revert i o. induction fields as [|val r IH]; intros i o Hlen Hfull; cbn [DecodeFields].
  - exists o. split; [done|]. simpl. by rewrite union_empty_r_L.
  - simpl in Hlen. destruct (lookup_lt_is_Some_2 headers i) as [h Hh]; [lia|].
    rewrite (index_lookup _ _ _ Hh). simpl.
    assert (∃ val', (if default false (headerFull !! h)
                     then index (SplitN2 val COLON) 1 else Ret val) = Ret val')
      as [val' ->].
    { destruct (headerFull !! h) as [[]|] eqn:Hf; simpl; [|by eexists..].
      assert (hasColon val) as Hc.
      { apply (Hfull 0%nat val h); [done | by rewrite Nat.add_0_r | done]. }
      unfold SplitN2. destruct (cut val COLON) as [[a b]|] eqn:Hcut; [by eexists|].
      by apply cut_None in Hcut. }
    simpl. destruct (IH (S i) (MIMEHeader_Set o h val')) as (o' & -> & Hdom).
    { lia. }
    { intros j v h' Hj Hh'. apply (Hfull (S j) v h'); [done|].
      by replace (i + S j)%nat with (S i + j)%nat by lia. }
    exists o'. split; [done|]. rewrite Hdom. unfold MIMEHeader_Set.
    rewrite dom_insert_L, (drop_S _ _ _ Hh). simpl.
    by rewrite (assoc_L (∪)), (comm_L (∪) (dom o)).
Qed.

Lemma Scan_app (pre ls : list string) (recs : list Overview) (fin : option error) :
  Forall2 decodes pre recs →
  Scan headers headerFull (pre ++ ls) fin
  = mkChan (recs ++ sent (Scan headers headerFull ls fin))
           (final (Scan headers headerFull ls fin)).
Proof.
  induction 1 as [|l o pre recs [Hl Hd] _ IH]; simpl.
  - by destruct (Scan headers headerFull ls fin).
  - destruct (Z.leb_spec MaxScanTokenSize (Z.of_nat (String.length l))); [lia|].
    rewrite Hd, IH. done.
Qed.

(** C4, amended: for every overview data line with fewer fields, separated
    by tabs, than there are columns, that fits the scanner and has a colon in
    each field of a full column, the stream does not abort: the record has
    the columns of the fields and the other columns are absent, the lines
    after it are decoded as without it, and the records sent before it are
    the same. *)
Theorem Scan_short_line (pre post : list string) (recs : list Overview) (l : string)
    (fin : option error) :
  (length (Split l TAB) < length headers)%nat →
  Z.of_nat (String.length l) < MaxScanTokenSize →
  (∀ j val h, Split l TAB !! j = Some val → headers !! j = Some h →
     headerFull !! h = Some true → hasColon val) →
  Forall2 decodes pre recs →
  ∃ o, Decode headers headerFull l = Ret o ∧ Err o = None
    ∧ dom (Headers o)
      = list_to_set (CanonicalMIMEHeaderKey <$> take (length (Split l TAB)) headers)
    ∧ sent (Scan headers headerFull (pre ++ l :: post) fin)
      = (recs ++ o :: sent (Scan headers headerFull post fin))%list
    ∧ final (Scan headers headerFull (pre ++ l :: post) fin)
      = final (Scan headers headerFull post fin).
Proof.
  intros Hlen Hfit Hfull Hpre.
  destruct (DecodeFields_short (Split l TAB) 0 ∅) as (h & Hd & Hdom).
  { simpl. lia. }
  { done. }
  exists (mkOverview h None). unfold Decode. rewrite Hd. simpl.
  split; [done|]. split; [done|]. split.
  { rewrite Hdom, dom_empty_L. simpl. by rewrite union_empty_l_L. }
  rewrite (Scan_app _ _ _ _ Hpre). simpl.
  destruct (Z.leb_spec MaxScanTokenSize (Z.of_nat (String.length l))); [lia|].
  unfold Decode. rewrite Hd. done.
Qed.

End Records.

Lemma Scan_short_line_witness :
  let headers := ["Article"; "Subject"; "Bytes"] in
  let headerFull : gmap string bool := {[ "Subject" := true; "Bytes" := false ]} in
  let l := "2" ++ String TAB "Subject: again" in
  ∃ o, Decode headers headerFull l = Ret o ∧ Err o = None
    ∧ dom (Headers o)
      = list_to_set (CanonicalMIMEHeaderKey <$> take (length (Split l TAB)) headers)
    ∧ sent (Scan headers headerFull (["1"] ++ l :: ["3"]) None)
      = ([mkOverview {[ "Article" := ["1"] ]} None]
           ++ o :: sent (Scan headers headerFull ["3"] None))%list
    ∧ final (Scan headers headerFull (["1"] ++ l :: ["3"]) None)
      = final (Scan headers headerFull ["3"] None).
Proof.
  apply (Scan_short_line ["Article"; "Subject"; "Bytes"]
           {[ "Subject" := true; "Bytes" := false ]} ["1"] ["3"]
           [mkOverview {[ "Article" := ["1"] ]} None]
           ("2" ++ String TAB "Subject: again") None).
  - vm_compute. lia.
  - by vm_compute.
  - intros [|[|j]] val h; simpl; try done.
    + intros [= <-] [= <-]. by vm_compute.
    + intros [= <-] _ _. compute_done.
  - repeat constructor; by vm_compute.
Defined.

(** On a transport that takes every write, [XOver] with a proper exchange
    hands out the channel of the loop [Scan] over the block of records. *)
Lemma PrintfLine_unlimited (line : string) (c : Conn) :
  quota c = None → werr c = None →
  PrintfLine line c
  = Ret (None, mkConn (unread c) None None (zdata c) (log c ++ [EvWrite (line ++ CRLF)])).
Proof. unfold PrintfLine, write. by intros -> ->. Qed.

Lemma XOver_stream (specifier msg msg' : string) (c : Conn) (raw data rest : list string)
    (headers : list string) (headerFull : gmap string bool) :
  quota c = None → werr c = None →
  unread c = ("215 " ++ msg) :: (raw ++ "." :: ("224 " +:+ msg') :: (data ++ "." :: rest))%list →
  "." ∉ raw → "." ∉ data →
  Format (msg :: (unstuff <$> raw)) = Ret (headers, headerFull) →
  value (XOver specifier false c)
  = Ret (Some (Scan headers headerFull (unstuff <$> data) None), None).
Proof.
  intros Hq Hw Hu Hraw Hdata Hf.
  pose proof (PrintfLine_unlimited "LIST OVERVIEW.FMT" c Hq Hw) as Hp.
  destruct (MultilineCommand_answer "LIST OVERVIEW.FMT" msg "2" "1" "5" 215 c _ raw
              (("224 " +:+ msg') :: (data ++ "." :: rest))%list eq_refl
              ltac:(lia) Hp Hu Hraw)
    as (c2 & Hm & Hu2 & Hq2 & Hw2 & _).
  unfold XOver, mbind at 1, M_bind. rewrite Hm.
  unfold mbind at 1, M_bind, lift. rewrite Hf.
  unfold mbind at 1, M_bind. rewrite PrintfLine_unlimited by done.
  unfold mbind at 1, M_bind.
  erewrite (ReadCodeLine_exact "2" "2" "4" msg' 224) by done.
  unfold Producer, mbind, M_bind, DotReader. simpl unread.
  by rewrite dotLines_block.
Qed.

(** ** POST *)

Lemma writesOnly_refl (c : Conn) : writesOnly c c.
Proof. done. Qed.

Lemma writesOnly_trans (c1 c2 c3 : Conn) :
  writesOnly c1 c2 → writesOnly c2 c3 → writesOnly c1 c3.
Proof. intros (? & ? & ?) (? & ? & ?). repeat split; congruence. Qed.

Create HintDb writes.
#[local] Hint Resolve writesOnly_refl writesOnly_trans : writes.

Lemma write_writesOnly (b : string) (c : Conn) :
  ∃ err c', write b c = Ret (err, c') ∧ writesOnly c c'.
Proof.
  destruct (write_total b c) as (err & c' & H & ? & ? & ? & _). by exists err, c'.
Qed.

Lemma writerErr_eq (c : Conn) : writerErr c = Ret (werr c, c).
Proof. done. Qed.

Lemma bufio_Flush_writesOnly (buf : string) (c : Conn) :
  ∃ buf' err c', bufio_Flush buf c = Ret ((buf', err), c') ∧ writesOnly c c'.
Proof.
  unfold bufio_Flush, mbind, M_bind, mret, M_ret.
  destruct (werr c); [by eexists _, _, _|].
  case_bool_decide; [by eexists _, _, _|].
  destruct (write_writesOnly buf c) as (err & c' & -> & Hw).
  destruct err; by eexists _, _, _.
Qed.

Lemma bufio_WriteByte_writesOnly (a : ascii) (buf : string) (c : Conn) :
  ∃ buf' err c', bufio_WriteByte a buf c = Ret ((buf', err), c') ∧ writesOnly c c'.
Proof.
  unfold bufio_WriteByte, mbind, M_bind, mret, M_ret. rewrite writerErr_eq.
  destruct (werr c); [by eexists _, _, _|].
  destruct (Available buf <=? 0)%nat; [|by eexists _, _, _].
  destruct (bufio_Flush_writesOnly buf c) as (buf' & err & c' & -> & Hw).
  destruct err; by eexists _, _, _.
Qed.

Lemma bufio_Write_writesOnly (p buf : string) (c : Conn) :
  ∃ buf' err c', bufio_Write p buf c = Ret ((buf', err), c') ∧ writesOnly c c'.
Proof.
  assert (∀ q c, ∃ buf' err c',
             (if (String.length q <=? defaultBufSize)%nat then mret (q, None)
              else err ← write q; mret ("", err)) c = Ret ((buf', err), c')
             ∧ writesOnly c c') as Hdirect.
  { intros q c0. destruct (String.length q <=? defaultBufSize)%nat; [by eexists _, _, _|].
    unfold mbind, M_bind, mret, M_ret.
    destruct (write_writesOnly q c0) as (err & c' & -> & Hw). by eexists _, _, _. }
  unfold bufio_Write. unfold mbind at 1, M_bind at 1. rewrite writerErr_eq.
  destruct (werr c); [by eexists _, _, _|].
  destruct (String.length p <=? Available buf)%nat; [by eexists _, _, _|].
  case_bool_decide; [apply Hdirect|].
  unfold mbind, M_bind.
  destruct (bufio_Flush_writesOnly (buf ++ substring 0 (Available buf) p) c)
    as (buf' & err & c' & -> & Hw).
  destruct err; [by eexists _, _, _|].
  destruct (Hdirect (substring (Available buf) (String.length p - Available buf) p) c')
    as (buf2 & err & c2 & H2 & Hw2).
  unfold mbind, M_bind in H2. rewrite H2.
  eexists _, _, _. split; [done|]. by eapply writesOnly_trans.
Qed.

Ltac step_buffer :=
  repeat match goal with
         | |- context [bufio_WriteByte ?a ?buf ?c] =>
             let H := fresh "Hw" in
             destruct (bufio_WriteByte_writesOnly a buf c) as (? & ? & ? & -> & H)
         | |- context [bufio_Write ?p ?buf ?c] =>
             let H := fresh "Hw" in
             destruct (bufio_Write_writesOnly p buf c) as (? & ? & ? & -> & H)
         | |- context [bufio_Flush ?buf ?c] =>
             let H := fresh "Hw" in
             destruct (bufio_Flush_writesOnly buf c) as (? & ? & ? & -> & H)
         end.

Lemma dotWriterByte_writesOnly (d : dotWriter) (a : ascii) (c : Conn) :
  ∃ d' err c', dotWriterByte d a c = Ret ((d', err), c') ∧ writesOnly c c'.
Proof.
  unfold dotWriterByte, dotWriterData, mbind, M_bind, mret, M_ret.
  destruct (state d), (Ascii.eqb a DOT), (Ascii.eqb a LF), (Ascii.eqb a CR);
    cbn beta; step_buffer; eexists _, _, _; (split; [reflexivity|]);
    eauto with writes.
Qed.

Lemma dotWriter_Write_writesOnly (b : string) (d : dotWriter) (n : nat) (c : Conn) :
  ∃ d' n' err c', dotWriter_Write b d n c = Ret ((d', n', err), c') ∧ writesOnly c c'.
Proof.
  revert d n c. induction b as [|a b IH]; intros d n c; simpl.
  - by eexists _, _, _, _.
  - unfold mbind, M_bind.
    destruct (dotWriterByte_writesOnly d a c) as (d1 & err & c1 & -> & Hw1).
    destruct err as [e|].
    + by eexists _, _, _, _.
    + destruct (IH d1 (S n) c1) as (d2 & n2 & err & c2 & -> & Hw2).
      eexists _, _, _, _. split; [done|]. by eapply writesOnly_trans.
Qed.

Lemma Copy_writesOnly (d : dotWriter) (r : Reader) (c : Conn) :
  ∃ d' n err c', Copy d r c = Ret ((d', n, err), c') ∧ writesOnly c c'.
Proof.
  unfold Copy, mbind, M_bind.
  destruct (dotWriter_Write_writesOnly (rdData r) d 0 c) as (d' & n & err & c' & -> & ?).
  destruct err; by eexists _, _, _, _.
Qed.

Lemma dotWriter_Close_writesOnly (d : dotWriter) (c : Conn) :
  ∃ err c', dotWriter_Close d c = Ret (err, c') ∧ writesOnly c c'.
Proof.
  unfold dotWriter_Close, mbind, M_bind, mret, M_ret.
  destruct (state d); cbn beta; step_buffer; eexists _, _; (split; [reflexivity|]);
    eauto with writes.
Qed.

Lemma append_assoc (a b c : string) : (a ++ b) ++ c = a ++ (b ++ c).
Proof.
  induction a as [|x a IH]; [done|].
  change (String x ((a ++ b) ++ c) = String x (a ++ (b ++ c))). by rewrite IH.
Qed.

Lemma written_app (c : Conn) (l : list event) :
  foldr (fun e acc => match e with EvWrite b => b ++ acc | EvRead _ => acc end) ""
    (log c ++ l)
  = written c
    ++ foldr (fun e acc => match e with EvWrite b => b ++ acc | EvRead _ => acc end) "" l.
Proof.
  unfold written. induction (log c) as [|e es IH]; [done|].
  destruct e; simpl; [by rewrite IH, append_assoc | done].
Qed.

Lemma append_nil_r (s : string) : s ++ "" = s.
Proof.
  induction s as [|x s IH]; [done|].
  change (String x (s ++ "") = String x s). by rewrite IH.
Qed.

Lemma written_write (c c' : Conn) (b : string) :
  log c' = (log c ++ [EvWrite b])%list → written c' = written c ++ b.
Proof.
  intros H. unfold written at 1. rewrite H, written_app. simpl. by rewrite append_nil_r.
Qed.

Lemma written_read (c c' : Conn) (l : string) :
  log c' = (log c ++ [EvRead l])%list → written c' = written c.
Proof.
  intros H. unfold written at 1. rewrite H, written_app. simpl. by rewrite append_nil_r.
Qed.

Lemma reads_write (c c' : Conn) (b : string) :
  log c' = (log c ++ [EvWrite b])%list → reads c' = reads c.
Proof. intros H. unfold reads. rewrite H, omap_app. simpl. by rewrite app_nil_r. Qed.

Lemma reads_read (c c' : Conn) (l : string) :
  log c' = (log c ++ [EvRead l])%list → reads c' = (reads c ++ [l])%list.
Proof. intros H. unfold reads. by rewrite H, omap_app. Qed.

(** The status line that [ReadCodeLine] took without an error. *)
Lemma ReadCodeLine_taken (a b d : ascii) (expect code : Z) (msg : string) (c c' : Conn) :
  Atoi (String a (String b (String d ""))) = (expect, None) → 100 ≤ expect < 1000 →
  ReadCodeLine expect c = Ret ((code, msg, None), c') →
  unread c = String a (String b (String d (String SP msg))) :: unread c'
  ∧ log c' = (log c ++ [EvRead (String a (String b (String d (String SP msg))))])%list.
Proof.
  intros HA He Hr.
  destruct (ReadCodeLine_refused expect c code msg c' He Hr)
    as (a' & b' & d' & d0 & d1 & d2 & Hu & Ha & Hb & Hd & Hsum & _).
  destruct (ReadCodeLine_total expect c) as (? & ? & ? & c2 & Hr2 & _ & _ & _ & Hcase).
  rewrite Hr in Hr2. injection Hr2 as <- <- <- <-.
  destruct Hcase as [(? & _)|(l & Hl & Hlog)]; [congruence|].
  rewrite Hu in Hl. injection Hl as <-.
  destruct (Atoi_three_digits _ _ _ _ HA) as (e0 & e1 & e2 & Ha' & Hb' & Hd' & Hsum');
    [lia|].
  apply digit_Some in Ha as [? ->], Hb as [? ->], Hd as [? ->].
  apply digit_Some in Ha' as [? ->], Hb' as [? ->], Hd' as [? ->].
  assert (d0 = e0 ∧ d1 = e1 ∧ d2 = e2) as (-> & -> & ->) by lia.
  done.
Qed.

(** [Post] never panics. *)
Lemma Post_total (r : Reader) (c : Conn) : ∃ err c', Post r c = Ret (err, c').
Proof.
  unfold Post, mbind, M_bind.
  destruct (write_writesOnly ("POST" ++ CRLF) c) as (e1 & c1 & H1 & _).
  unfold PrintfLine. rewrite H1. destruct e1; [by eexists _, _|].
  destruct (ReadCodeLine_total 340 c1) as (? & ? & e2 & c2 & -> & _).
  destruct e2; [by eexists _, _|].
  destruct (Copy_writesOnly DotWriter r c2) as (w & ? & e3 & c3 & -> & _).
  destruct e3; [by eexists _, _|].
  destruct (dotWriter_Close_writesOnly w c3) as (? & c4 & -> & _).
  destruct (ReadCodeLine_total 240 c4) as (? & ? & e5 & c5 & -> & _).
  by eexists _, _.
Qed.

(** C7, as the specification states it, fails: the article goes into the
    buffer of the connection's writer, and one that fits into it reaches the
    transport only when the dot writer is closed.  Here the transport takes
    two bytes of the block and fails; [io.Copy] has returned no error, the
    error of [Close] is dropped, and [Post] reads the line of code 240 and
    returns no error. *)
Lemma Post_short_article_failure_unreported :
  let c := mkConn ["340 send article"; "240 article received"] (Some 8%nat) None
             (inl ErrZlib) [] in
  let c2 := mkConn ["240 article received"] (Some 2%nat) None (inl ErrZlib)
              [EvWrite ("POST" ++ CRLF); EvRead "340 send article"] in
  (∃ w n c3 c4, Copy DotWriter article c2 = Ret ((w, n, None), c3)
     ∧ dotWriter_Close w c3 = Ret (Some ErrWrite, c4)
     ∧ written c4 = ("POST" ++ CRLF) ++ "Su")
  ∧ ∃ c', Post article c = Ret (None, c')
      ∧ reads c' = ["340 send article"; "240 article received"].
Proof.
  split.
  - eexists _, _, _, _. split; [by vm_compute|]. split; by vm_compute.
  - eexists. split; by vm_compute.
Qed.

(** C7, amended: when the answer to POST is not the line of code 340, [Post]
    returns the failure and has written nothing but the command; when the 340
    line is read and the copy of the article into the dot writer returns an
    error (the reader of the article fails, or the transport fails when the
    full buffer is flushed during the copy), the error is returned at once,
    with no further line read; and when [Post] succeeds, the last exchange is
    the read of the line of code 240. *)
Theorem Post_exchange (r : Reader) (c c1 : Conn) (line : string) (rest : list string) :
  PrintfLine "POST" c = Ret (None, c1) →
  unread c = line :: rest →
  ((∀ msg, line ≠ "340 " ++ msg) →
     ∃ e c', Post r c = Ret (Some e, c') ∧ written c' = written c ++ ("POST" ++ CRLF))
  ∧ (∀ msg c2 w n e c3,
       ReadCodeLine 340 c1 = Ret ((340, msg, None), c2) →
       Copy DotWriter r c2 = Ret ((w, n, Some e), c3) →
       Post r c = Ret (Some e, c3) ∧ unread c3 = rest ∧ reads c3 = (reads c ++ [line])%list)
  ∧ (∀ c', Post r c = Ret (None, c') →
       ∃ pre msg, log c' = (pre ++ [EvRead ("240 " ++ msg)])%list).
Proof.
  intros Hw Hu.
  destruct (PrintfLine_ok _ _ _ Hw) as (Hu1 & _ & _ & Hlog1). rewrite Hu in Hu1.
  split; [|split].
  - (* the answer is not 340 *)
    intros Hno. unfold Post, mbind, M_bind. rewrite Hw.
    destruct (ReadCodeLine_total 340 c1) as (code & msg & err & c2 & Hr & _ & _ & _ & Hcase).
    rewrite Hr. destruct err as [e|].
    + exists e, c2. split; [done|].
      destruct Hcase as [(? & _)|(l & _ & Hlog2)]; [congruence|].
      by rewrite (written_read _ _ _ Hlog2), (written_write _ _ _ Hlog1).
    + exfalso. destruct (ReadCodeLine_taken "3" "4" "0" 340 code msg c1 c2) as [Hl _];
        [done | lia | done|].
      rewrite Hu1 in Hl. injection Hl as -> _. by apply (Hno msg).
  - (* the copy fails *)
    intros msg c2 w n e c3 Hr Hcopy.
    destruct (Copy_writesOnly DotWriter r c2) as (? & ? & ? & c3' & Hc & Hu3 & _ & Hr3).
    rewrite Hcopy in Hc. injection Hc as <- <- <- <-.
    destruct (ReadCodeLine_taken "3" "4" "0" 340 340 msg c1 c2) as [Hl Hlog2];
      [done | lia | done|].
    rewrite Hu1 in Hl. injection Hl as -> Hrest.
    split; [|split].
    + unfold Post, mbind, M_bind. rewrite Hw, Hr. by rewrite Hcopy.
    + by rewrite Hu3.
    + by rewrite Hr3, (reads_read _ _ _ Hlog2), (reads_write _ _ _ Hlog1).
  - (* success *)
    intros c'. unfold Post, mbind, M_bind. rewrite Hw.
    destruct (ReadCodeLine_total 340 c1) as (? & ? & e2 & c2 & -> & _).
    destruct e2; [done|].
    destruct (Copy_writesOnly DotWriter r c2) as (w & ? & e3 & c3 & -> & _).
    destruct e3; [done|].
    destruct (dotWriter_Close_writesOnly w c3) as (? & c4 & -> & _).
    destruct (ReadCodeLine_total 240 c4) as (code & msg & e5 & c5 & Hr & _).
    rewrite Hr. intros [= -> ->].
    destruct (ReadCodeLine_taken "2" "4" "0" 240 code msg c4 c') as [_ Hlog];
      [done | lia | done|].
    by exists (log c4), msg.
Qed.

Lemma Post_exchange_witness :
  (∃ e c', Post article (serverSends ["440 posting not allowed"]) = Ret (Some e, c')
           ∧ written c' = written (serverSends ["440 posting not allowed"]) ++ ("POST" ++ CRLF))
  ∧ (∃ c3, Post (articleOf 4097) (mkConn ["340 send article"; "240 article received"]
                                    (Some 100%nat) None (inl ErrZlib) [])
           = Ret (Some ErrWrite, c3)
           ∧ unread c3 = ["240 article received"]
           ∧ reads c3 = ([] ++ ["340 send article"])%list)
  ∧ (∃ c3, Post (mkReader "Subject: te" (Some ErrUnexpectedEOF))
             (serverSends ["340 send article"; "240 article received"])
           = Ret (Some ErrUnexpectedEOF, c3)
           ∧ unread c3 = ["240 article received"]
           ∧ reads c3 = ([] ++ ["340 send article"])%list)
  ∧ (∃ pre msg c', Post article (serverSends ["340 send article"; "240 article received"])
                   = Ret (None, c')
                   ∧ log c' = (pre ++ [EvRead ("240 " ++ msg)])%list).
Proof.
  split; [|split; [|split]].
  - apply (proj1 (Post_exchange article (serverSends ["440 posting not allowed"])
                    (mkConn ["440 posting not allowed"] None None (inl ErrZlib)
                       [EvWrite ("POST" ++ CRLF)])
                    "440 posting not allowed" [] eq_refl eq_refl)).
    intros msg H. discriminate H.
  - eexists.
    eapply (proj1 (proj2 (Post_exchange (articleOf 4097)
                            (mkConn ["340 send article"; "240 article received"]
                               (Some 100%nat) None (inl ErrZlib) [])
                            (mkConn ["340 send article"; "240 article received"]
                               (Some 94%nat) None (inl ErrZlib) [EvWrite ("POST" ++ CRLF)])
                            "340 send article" ["240 article received"] eq_refl eq_refl))
              "send article").
    + vm_compute. reflexivity.
    + vm_compute. reflexivity.
  - eexists.
    eapply (proj1 (proj2 (Post_exchange (mkReader "Subject: te" (Some ErrUnexpectedEOF))
                            (serverSends ["340 send article"; "240 article received"])
                            (mkConn ["340 send article"; "240 article received"] None
                               None (inl ErrZlib) [EvWrite ("POST" ++ CRLF)])
                            "340 send article" ["240 article received"] eq_refl eq_refl))
              "send article").
    + vm_compute. reflexivity.
    + vm_compute. reflexivity.
  - eassert (Post article (serverSends ["340 send article"; "240 article received"])
             = Ret (None, _)) as HP by (vm_compute; reflexivity).
    destruct (proj2 (proj2 (Post_exchange article
                              (serverSends ["340 send article"; "240 article received"])
                              (mkConn ["340 send article"; "240 article received"] None
                                 None (inl ErrZlib) [EvWrite ("POST" ++ CRLF)])
                              "340 send article" ["240 article received"] eq_refl eq_refl))
                _ HP) as (pre & msg & Hlog).
    eexists pre, msg, _. split; [exact HP | exact Hlog].
Defined.

(** * Further properties of the client *)

(** ** Status codes *)

Lemma digit_not_sign (a : ascii) (d : Z) :
  digit a = Some d → Ascii.eqb a "+" = false ∧ Ascii.eqb a "-" = false.
Proof.
  intros H. split.
  - destruct (Ascii.eqb_spec a "+") as [->|]; [by vm_compute in H | done].
  - destruct (Ascii.eqb_spec a "-") as [->|]; [by vm_compute in H | done].
Qed.

(** Three digits are read as their number. *)
Lemma Atoi_digits (a b c : ascii) (d0 d1 d2 : Z) :
  digit a = Some d0 → digit b = Some d1 → digit c = Some d2 →
  Atoi (String a (String b (String c ""))) = (100 * d0 + 10 * d1 + d2, None).
Proof.
  intros Ha Hb Hc. unfold Atoi, parseInt, ParseUint.
  destruct (digit_not_sign _ _ Ha) as [-> ->]. cbn [orb].
  pose proof (digit_Some _ _ Ha) as [? _].
  pose proof (digit_Some _ _ Hb) as [? _].
  pose proof (digit_Some _ _ Hc) as [? _].
  rewrite (parseUintLoop_step a), Ha by lia.
  rewrite (parseUintLoop_step b), Hb by lia.
  rewrite (parseUintLoop_step c), Hc by lia.
  simpl. change (2 ^ 63) with 9223372036854775808.
  destruct (Z.leb_spec 9223372036854775808 (((0 * 10 + d0) * 10 + d1) * 10 + d2)); [lia|].
  f_equal. lia.
Qed.

(** What [parseCodeLine] makes of a line of three digits, a space and a
    text. *)
Lemma parseCodeLine_digits (a b c : ascii) (d0 d1 d2 : Z) (msg : string) (expect : Z) :
  digit a = Some d0 → digit b = Some d1 → digit c = Some d2 → 1 ≤ d0 →
  let code := 100 * d0 + 10 * d1 + d2 in
  ∃ err, parseCodeLine (String a (String b (String c (String SP msg)))) expect
         = (code, false, msg, err)
    ∧ (err = None ∨ err = Some (Error code msg))
    ∧ (100 ≤ expect < 1000 → (err = None ↔ code = expect))
    ∧ (10 ≤ expect < 100 → (err = None ↔ expect * 10 ≤ code < expect * 10 + 10))
    ∧ (1 ≤ expect < 10 → (err = None ↔ expect * 100 ≤ code < expect * 100 + 100))
    ∧ (expect < 1 ∨ 1000 ≤ expect → err = None).
Proof.
  intros Ha Hb Hc Hd0 code.
  pose proof (digit_Some _ _ Ha) as [? _].
  pose proof (digit_Some _ _ Hb) as [? _].
  pose proof (digit_Some _ _ Hc) as [? _].
  unfold parseCodeLine.
  cbn [String.length Nat.ltb Nat.leb Nat.sub orb String.get substring].
  rewrite (Atoi_digits _ _ _ _ _ _ Ha Hb Hc). fold code.
  replace (String.length msg - 0)%nat with (String.length msg) by lia.
  rewrite substring_all, bool_decide_eq_true_2 by done. cbn [orb negb].
  rewrite (bool_decide_eq_false_2 (Some SP = Some "-"%char)) by done.
  rewrite (bool_decide_eq_false_2 (None ≠ None)) by (by intros []).
  cbn [orb]. destruct (Z.ltb_spec code 100); [unfold code in *; lia|].
  assert (0 ≤ code < 1000) by (unfold code; lia).
  pose proof (Z.quot_div_nonneg code 100) as Hq1.
  pose proof (Z.quot_div_nonneg code 10) as Hq2.
  rewrite Hq1, Hq2 by lia.
  pose proof (Z.div_mod code 100) as Hm1. pose proof (Z.mod_pos_bound code 100) as Hb1.
  pose proof (Z.div_mod code 10) as Hm2. pose proof (Z.mod_pos_bound code 10) as Hb2.
  destruct (Z.leb_spec 1 expect), (Z.ltb_spec expect 10), (Z.leb_spec 10 expect),
    (Z.ltb_spec expect 100), (Z.leb_spec 100 expect), (Z.ltb_spec expect 1000),
    (Z.eqb_spec (code `div` 100) expect), (Z.eqb_spec (code `div` 10) expect),
    (Z.eqb_spec code expect); simpl; try lia;
    eexists; (split; [reflexivity|]);
    (split; [by auto|]); repeat split; intros; try done; try lia.
Qed.

(** [Command], for a text without a [%], which [fmt] prints as it is: the
    line sent, the one line read, and the code compared with what the caller
    expects: a whole code, a prefix of one or two digits, or nothing when the
    expectation is no such number (as -1). *)
Theorem Command_expectation (cmd msg : string) (expectCode : Z) (c c1 : Conn)
    (a b d : ascii) (d0 d1 d2 : Z) (rest : list string) :
  noVerb cmd →
  PrintfLine cmd c = Ret (None, c1) →
  unread c = String a (String b (String d (String SP msg))) :: rest →
  digit a = Some d0 → digit b = Some d1 → digit d = Some d2 → 1 ≤ d0 →
  let code := 100 * d0 + 10 * d1 + d2 in
  ∃ err c2, Command cmd expectCode c = Ret ((code, msg, err), c2)
    ∧ unread c2 = rest
    ∧ written c2 = written c ++ (cmd ++ CRLF)
    ∧ (err = None ∨ err = Some (Error code msg))
    ∧ (100 ≤ expectCode < 1000 → (err = None ↔ code = expectCode))
    ∧ (10 ≤ expectCode < 100 → (err = None ↔ expectCode * 10 ≤ code < expectCode * 10 + 10))
    ∧ (1 ≤ expectCode < 10 → (err = None ↔ expectCode * 100 ≤ code < expectCode * 100 + 100))
    ∧ (expectCode < 1 ∨ 1000 ≤ expectCode → err = None).
Proof.
  intros _ Hw Hu Ha Hb Hd Hd0 code.
  destruct (PrintfLine_ok _ _ _ Hw) as (Hu1 & _ & _ & Hlog1). rewrite Hu in Hu1.
  destruct (parseCodeLine_digits a b d d0 d1 d2 msg expectCode Ha Hb Hd Hd0)
    as (err & Hp & Hcases).
  unfold Command, mbind, M_bind. rewrite Hw.
  unfold ReadCodeLine, mbind, M_bind. rewrite (ReadLine_cons _ _ _ Hu1), Hp.
  rewrite andb_false_r. eexists err, _. split; [reflexivity|].
  split; [done|]. split; [|exact Hcases].
  erewrite written_read by reflexivity. by apply written_write.
Qed.

Lemma Command_expectation_witness :
  ∃ err c2, Command "MODE READER" 2 (serverSends ["201 no posting"; "next"])
            = Ret ((100 * 2 + 10 * 0 + 1, "no posting", err), c2)
    ∧ unread c2 = ["next"]
    ∧ written c2 = written (serverSends ["201 no posting"; "next"]) ++ ("MODE READER" ++ CRLF)
    ∧ (err = None ∨ err = Some (Error (100 * 2 + 10 * 0 + 1) "no posting"))
    ∧ (100 ≤ 2 < 1000 → (err = None ↔ 100 * 2 + 10 * 0 + 1 = 2))
    ∧ (10 ≤ 2 < 100 → (err = None ↔ 2 * 10 ≤ 100 * 2 + 10 * 0 + 1 < 2 * 10 + 10))
    ∧ (1 ≤ 2 < 10 → (err = None ↔ 2 * 100 ≤ 100 * 2 + 10 * 0 + 1 < 2 * 100 + 100))
    ∧ (2 < 1 ∨ 1000 ≤ 2 → err = None).
Proof.
  apply (Command_expectation "MODE READER" "no posting" 2
           (serverSends ["201 no posting"; "next"])
           (mkConn ["201 no posting"; "next"] None None (inl ErrZlib)
              [EvWrite ("MODE READER" ++ CRLF)])
           "2" "0" "1" 2 0 1 ["next"]); try reflexivity; [compute_done | lia].
Defined.

(** ** Refused fetches *)

(** When the server answers ARTICLE, HEAD or BODY with another code than the
    one of the command (as 430 or 423), the call returns the code and the
    text of the server in a [textproto.Error], no number, no text and no
    reader, and it has read the status line only. *)
Theorem fetch_refused (op : string → M (Z * string * option ioReader * option error))
    (verb specifier msg : string) (expected : Z) (c c1 : Conn)
    (a b d : ascii) (d0 d1 d2 : Z) (rest : list string) :
  (op, verb, expected) ∈ [(Article, "ARTICLE ", 220); (Head, "HEAD ", 221);
                           (Body, "BODY ", 222)] →
  PrintfLine (verb ++ specifier) c = Ret (None, c1) →
  unread c = String a (String b (String d (String SP msg))) :: rest →
  digit a = Some d0 → digit b = Some d1 → digit d = Some d2 → 1 ≤ d0 →
  100 * d0 + 10 * d1 + d2 ≠ expected →
  ∃ c2, op specifier c
        = Ret ((0, "", None, Some (Error (100 * d0 + 10 * d1 + d2) msg)), c2)
    ∧ unread c2 = rest.
Proof.
  intros Hop Hw Hu Ha Hb Hd Hd0 Hne.
  destruct (PrintfLine_ok _ _ _ Hw) as (Hu1 & _). rewrite Hu in Hu1.
  assert (100 ≤ expected < 1000) as He.
  { rewrite !elem_of_cons, elem_of_nil in Hop.
    destruct Hop as [[= _ _ ->]|[[= _ _ ->]|[[= _ _ ->]|[]]]]; lia. }
  destruct (parseCodeLine_digits a b d d0 d1 d2 msg expected Ha Hb Hd Hd0)
    as (err & Hp & Herr & Hexact & _).
  assert (err = Some (Error (100 * d0 + 10 * d1 + d2) msg)) as ->.
  { destruct Herr as [-> | ->]; [|done]. by destruct (proj1 (Hexact He) eq_refl). }
  assert (articleish expected c1
          = Ret ((0, "", None, Some (Error (100 * d0 + 10 * d1 + d2) msg)),
                 mkConn rest (quota c1) (werr c1) (zdata c1)
                   (log c1 ++ [EvRead (String a (String b (String d (String SP msg))))])))
    as Hart.
  { unfold articleish, mbind, M_bind, ReadCodeLine, mbind, M_bind.
    by rewrite (ReadLine_cons _ _ _ Hu1), Hp. }
  rewrite !elem_of_cons, elem_of_nil in Hop.
  destruct Hop as [[= -> -> ->]|[[= -> -> ->]|[[= -> -> ->]|[]]]];
    [unfold Article | unfold Head | unfold Body];
    unfold mbind, M_bind; rewrite Hw, Hart; by eexists.
Qed.

Lemma fetch_refused_witness :
  ∃ c2, Body "<none@example.org>" (serverSends ["430 no such article"; "next"])
        = Ret ((0, "", None, Some (Error (100 * 4 + 10 * 3 + 0) "no such article")), c2)
    ∧ unread c2 = ["next"].
Proof.
  apply (fetch_refused Body "BODY " "<none@example.org>" "no such article" 222
           (serverSends ["430 no such article"; "next"])
           (mkConn ["430 no such article"; "next"] None None (inl ErrZlib)
              [EvWrite ("BODY <none@example.org>" ++ CRLF)])
           "4" "3" "0" 4 3 0 ["next"]); try reflexivity.
  - right; right; left.
  - lia.
  - lia.
Defined.

(** ** AUTHINFO *)

(** [Authenticate] returns no error only when the server answered the user
    line with 381 and the pass line with 281, and what it returns is the text
    of the 281 line. *)
Theorem Authenticate_success_only (user pass msg : string) (c c' : Conn) :
  Authenticate user pass c = Ret ((msg, None), c') →
  ∃ m, unread c = ("381 " ++ m) :: ("281 " ++ msg) :: unread c'.
Proof.
  unfold Authenticate, mbind, M_bind, PrintfLine.
  destruct (write_writesOnly (("authinfo user " ++ user) ++ CRLF) c)
    as (e1 & c1 & -> & Hu1 & _).
  destruct e1; [done|].
  destruct (ReadCodeLine_total 381 c1) as (code & m & e2 & c2 & Hr1 & _).
  rewrite Hr1. destruct e2; [done|].
  destruct (write_writesOnly (("authinfo pass " ++ pass) ++ CRLF) c2)
    as (e3 & c3 & -> & Hu3 & _).
  destruct e3; [done|].
  destruct (ReadCodeLine_total 281 c3) as (code' & m' & e4 & c4 & Hr2 & _).
  rewrite Hr2. intros [= -> -> ->].
  destruct (ReadCodeLine_taken "3" "8" "1" 381 code m c1 c2) as [Hl1 _]; [done | lia | done|].
  destruct (ReadCodeLine_taken "2" "8" "1" 281 code' msg c3 c') as [Hl2 _];
    [done | lia | done|].
  exists m. rewrite <- Hu1, Hl1, <- Hu3, Hl2. done.
Qed.

Lemma Authenticate_success_only_witness :
  ∃ m, unread (serverSends ["381 password required"; "281 welcome"; "next"])
       = ("381 " ++ m) :: ("281 " ++ "welcome")
         :: unread (mkConn ["next"] None None (inl ErrZlib)
                      [EvWrite ("authinfo user bob" ++ CRLF); EvRead "381 password required";
                       EvWrite ("authinfo pass secret" ++ CRLF); EvRead "281 welcome"]).
Proof.
  apply (Authenticate_success_only "bob" "secret" "welcome"
           (serverSends ["381 password required"; "281 welcome"; "next"])).
  reflexivity.
Defined.

(** On a transport that takes the writes, the answers 381 and 281 make
    [Authenticate] succeed with the text of the second; it has sent the user
    line and then the pass line, and read these two lines only. *)
Theorem Authenticate_accepted (user pass m1 m2 : string) (c : Conn) (rest : list string) :
  quota c = None → werr c = None →
  unread c = ("381 " ++ m1) :: ("281 " ++ m2) :: rest →
  ∃ c', Authenticate user pass c = Ret ((m2, None), c')
    ∧ unread c' = rest
    ∧ written c' = (written c ++ (("authinfo user " ++ user) ++ CRLF))
                   ++ (("authinfo pass " ++ pass) ++ CRLF).
Proof.
  intros Hq Hw Hu. unfold Authenticate, mbind at 1, M_bind.
  rewrite PrintfLine_unlimited by done.
  unfold mbind at 1, M_bind.
  erewrite (ReadCodeLine_exact "3" "8" "1" m1 381) by done.
  unfold mbind at 1, M_bind. rewrite PrintfLine_unlimited by done.
  unfold mbind, M_bind.
  erewrite (ReadCodeLine_exact "2" "8" "1" m2 281) by done.
  eexists. split; [reflexivity|]. split; [done|].
  unfold written at 1. cbn [log]. rewrite <- !app_assoc, written_app. simpl.
  rewrite append_nil_r. symmetry. apply append_assoc.
Qed.

Lemma Authenticate_accepted_witness :
  ∃ c', Authenticate "bob" "secret" (serverSends ["381 password required"; "281 welcome"])
        = Ret (("welcome", None), c')
    ∧ unread c' = []
    ∧ written c' = (written (serverSends ["381 password required"; "281 welcome"])
                    ++ (("authinfo user " ++ "bob") ++ CRLF))
                   ++ (("authinfo pass " ++ "secret") ++ CRLF).
Proof.
  apply (Authenticate_accepted "bob" "secret" "password required" "welcome"
           (serverSends ["381 password required"; "281 welcome"]) []); reflexivity.
Defined.

(** When the answer to the user line is not 381, or there is none,
    [Authenticate] returns an error and has written the user line only: the
    password is not sent. *)
Theorem Authenticate_user_refused (user pass : string) (c c1 : Conn) :
  PrintfLine ("authinfo user " ++ user) c = Ret (None, c1) →
  (∀ m rest, unread c ≠ ("381 " ++ m) :: rest) →
  ∃ e c', Authenticate user pass c = Ret (("", Some e), c')
    ∧ written c' = written c ++ (("authinfo user " ++ user) ++ CRLF).
Proof.
  intros Hw Hno.
  destruct (PrintfLine_ok _ _ _ Hw) as (Hu1 & _ & _ & Hlog1).
  unfold Authenticate, mbind, M_bind. rewrite Hw.
  destruct (ReadCodeLine_total 381 c1) as (code & m & err & c2 & Hr & _ & _ & _ & Hcase).
  rewrite Hr. destruct err as [e|].
  - exists e, c2. split; [done|].
    destruct Hcase as [(_ & -> & _)|(l & _ & Hlog2)].
    + by apply written_write.
    + by rewrite (written_read _ _ _ Hlog2), (written_write _ _ _ Hlog1).
  - exfalso. destruct (ReadCodeLine_taken "3" "8" "1" 381 code m c1 c2) as [Hl _];
      [done | lia | done|].
    rewrite Hu1 in Hl. by apply (Hno m (unread c2)).
Qed.

Lemma Authenticate_user_refused_witness :
  ∃ e c', Authenticate "bob" "secret" (serverSends ["482 authentication rejected"])
          = Ret (("", Some e), c')
    ∧ written c' = written (serverSends ["482 authentication rejected"])
                   ++ (("authinfo user " ++ "bob") ++ CRLF).
Proof.
  apply (Authenticate_user_refused "bob" "secret"
           (serverSends ["482 authentication rejected"])
           (mkConn ["482 authentication rejected"] None None (inl ErrZlib)
              [EvWrite ("authinfo user bob" ++ CRLF)])).
  - reflexivity.
  - intros m rest H. discriminate H.
Defined.

(** ** More on LIST *)

Lemma parseUintLoop_nonneg (s : string) (n : Z) : 0 ≤ n → 0 ≤ (parseUintLoop s n).1.
Proof.
  revert n. induction s as [|c s IH]; intros n Hn; simpl; [done|].
  destruct (digit c) as [d|] eqn:Hd; [|done].
  apply digit_Some in Hd as [Hd _].
  destruct (_ <=? n); [done|]. destruct (_ <? _); [done|]. apply IH. lia.
Qed.

(** The number that [ParseInt] returns, with or without an error, is one of
    64 bits. *)
Lemma ParseInt_int64 (s : string) : - 2 ^ 63 ≤ (ParseInt s).1 ≤ 2 ^ 63 - 1.
Proof.
  unfold ParseInt, parseInt. destruct s as [|c r]; [simpl; lia|].
  set (body := if Ascii.eqb c "+" || Ascii.eqb c "-" then r else String c r).
  assert (0 ≤ (ParseUint body).1) as Hun.
  { unfold ParseUint. destruct body; [done|]. by apply parseUintLoop_nonneg. }
  destruct (ParseUint body) as [un [[]|]]; simpl in *; try lia;
    destruct (Ascii.eqb c "-"); simpl;
    repeat match goal with
           | |- context [Z.leb ?x ?y] => destruct (Z.leb_spec x y); simpl
           | |- context [Z.ltb ?x ?y] => destruct (Z.ltb_spec x y); simpl
           end; lia.
Qed.

Lemma ListBody_listedGroup (rv rv' : list nntp.Group) (l : string) :
  Forall listedGroup rv → ListBody rv l = Ret rv' → Forall listedGroup rv'.
Proof.
  intros Hrv. unfold ListBody.
  destruct (index (Split l SP) 1) as [p1|]; simpl; [|done].
  pose proof (ParseInt_int64 p1) as H1. destruct (ParseInt p1) as [high errh].
  destruct (index (Split l SP) 2) as [p2|]; simpl; [|done].
  pose proof (ParseInt_int64 p2) as H2. destruct (ParseInt p2) as [low errl].
  destruct (bool_decide (errh = None) && bool_decide (errl = None)).
  - destruct (index (Split l SP) 0) as [p0|]; simpl; [|done].
    destruct (index (Split l SP) 3) as [p3|]; simpl; [|done].
    intros [= <-]. apply Forall_app. split; [done|]. constructor; [|done].
    unfold listedGroup. cbn [nntp.Count nntp.Posting nntp.High nntp.Low].
    cbn [fst] in H1, H2. split; [done|]. split; [|done].
    unfold parsePosting. by repeat case_bool_decide.
  - by intros [= <-].
Qed.

(** Whatever the server sends, the descriptors that [List] returns have no
    article count, a posting status that is one of permitted, moderated and
    not permitted, and watermarks of 64 bits. *)
Theorem List_descriptors (sub : string) (c c' : Conn) (rv : list nntp.Group)
    (err : option error) :
  List sub c = Ret ((rv, err), c') → Forall listedGroup rv.
Proof.
  unfold List, mbind, M_bind.
  destruct (Command ("LIST " ++ sub) 215 c) as [[[[? ?] [e|]] c1]|]; [by intros [= <- _ _]| |done].
  destruct (ReadDotLines c1) as [[[groupLines [e|]] c2]|]; [by intros [= <- _ _]| |done].
  unfold lift.
  destruct (forRange ListBody groupLines []) as [rv'|] eqn:Hloop; [|done].
  intros [= <- _ _].
  assert (∀ ls rv0 rv1, Forall listedGroup rv0 → forRange ListBody ls rv0 = Ret rv1 →
                        Forall listedGroup rv1) as Hinv.
  { clear. induction ls as [|l ls IH]; intros rv0 rv1 H0; simpl.
    - by intros [= <-].
    - destruct (ListBody rv0 l) as [rv2|] eqn:Hb; simpl; [|done].
      apply IH. by eapply ListBody_listedGroup. }
  by apply (Hinv groupLines [] rv').
Qed.

Lemma List_descriptors_witness :
  Forall listedGroup
    [nntp.mkGroup "misc.test" 0 10 1 nntp.PostingPermitted;
     nntp.mkGroup "misc.huge" 0 (2 ^ 63 - 1) 1 nntp.PostingNotPermitted].
Proof.
  eapply (List_descriptors "" (serverSends ["215 list follows"; "misc.test 10 1 y";
                                            "misc.huge 9223372036854775807 1 x"; "."])).
  vm_compute. reflexivity.
Defined.

Lemma dotLines_eof (raw v : list string) (n : nat) :
  "." ∉ raw →
  dotLines raw v n = ((v ++ (unstuff <$> raw))%list, Some ErrUnexpectedEOF, (n + length raw)%nat).
Proof.
  revert v n. induction raw as [|l raw IH]; intros v n Hdot; simpl.
  - rewrite app_nil_r. f_equal; try done; lia.
  - apply not_elem_of_cons in Hdot as [Hl Hdot].
    destruct l as [|a l].
    + rewrite IH by done. rewrite <- app_assoc. simpl. f_equal; try done; lia.
    + destruct (Ascii.eqb_spec a DOT) as [->|Ha].
      * destruct l as [|b l]; [done|].
        rewrite IH by done. rewrite <- app_assoc. simpl. f_equal; try done; lia.
      * rewrite IH by done. rewrite <- app_assoc. simpl.
        rewrite (proj2 (Ascii.eqb_neq a DOT)) by done. f_equal; try done; lia.
Qed.

(** When the connection ends before the closing dot of the listing, [List]
    returns [io.ErrUnexpectedEOF] and no descriptor: the lines that came
    before the end are given up. *)
Theorem List_truncated (sub msg : string) (c c1 : Conn) (raw : list string) :
  PrintfLine ("LIST " ++ sub) c = Ret (None, c1) →
  unread c = ("215 " ++ msg) :: raw → "." ∉ raw →
  ∃ c2, List sub c = Ret (([], Some ErrUnexpectedEOF), c2) ∧ unread c2 = [].
Proof.
  intros Hw Hu Hdot. unfold List, Command, mbind, M_bind. rewrite Hw.
  destruct (PrintfLine_ok _ _ _ Hw) as (Hu1 & _). rewrite Hu in Hu1.
  rewrite (ReadCodeLine_exact "2" "1" "5" msg 215 c1 _) by done.
  unfold ReadDotLines. cbn [unread]. rewrite dotLines_eof by done.
  eexists. split; [reflexivity|]. unfold takeLines. cbn [unread]. simpl.
  by rewrite drop_all.
Qed.

Lemma List_truncated_witness :
  ∃ c2, List "" (serverSends ["215 list follows"; "misc.test 10 1 y"])
        = Ret (([], Some ErrUnexpectedEOF), c2) ∧ unread c2 = [].
Proof.
  apply (List_truncated "" "list follows" (serverSends ["215 list follows"; "misc.test 10 1 y"])
           (mkConn ["215 list follows"; "misc.test 10 1 y"] None None (inl ErrZlib)
              [EvWrite ("LIST " ++ CRLF)])
           ["misc.test 10 1 y"]).
  - reflexivity.
  - reflexivity.
  - compute_done.
Defined.

(** ** More on GROUP *)

Lemma GroupParse_success (msg : string) (g : nntp.Group) :
  GroupParse msg = Ret (g, None) →
  ∃ a b d more,
    Split msg SP = a :: b :: d :: nntp.Name g :: more
    ∧ ParseInt a = (nntp.Count g, None) ∧ ParseInt b = (nntp.Low g, None)
    ∧ ParseInt d = (nntp.High g, None) ∧ nntp.Posting g = nntp.Unknown.
Proof.
  unfold GroupParse.
  destruct (Split msg SP) as [|a [|b [|d [|nm more]]]]; simpl; try done.
  - destruct (ParseInt a) as [? [?|]]; [by intros [=] | done].
  - destruct (ParseInt a) as [? [?|]]; [by intros [=]|].
    destruct (ParseInt b) as [? [?|]]; [by intros [=] | done].
  - destruct (ParseInt a) as [? [?|]]; [by intros [=]|].
    destruct (ParseInt b) as [? [?|]]; [by intros [=]|].
    destruct (ParseInt d) as [? [?|]]; [by intros [=] | done].
  - destruct (ParseInt a) as [n1 [?|]] eqn:Ha; [by intros [=]|].
    destruct (ParseInt b) as [n2 [?|]] eqn:Hb; [by intros [=]|].
    destruct (ParseInt d) as [n3 [?|]] eqn:Hd; [by intros [=]|].
    intros [= <-]. by exists a, b, d, more.
Qed.

(** [Group] returns no error only when the server answered 211 with a text
    of at least four fields of which the first three are integers; the
    descriptor then is count, low, high and name in this order of the fields,
    and its posting status is not set. *)
Theorem Group_success_only (name : string) (c c' : Conn) (g : nntp.Group) :
  Group name c = Ret ((g, None), c') →
  ∃ msg a b d more,
    unread c = ("211 " ++ msg) :: unread c'
    ∧ Split msg SP = a :: b :: d :: nntp.Name g :: more
    ∧ ParseInt a = (nntp.Count g, None) ∧ ParseInt b = (nntp.Low g, None)
    ∧ ParseInt d = (nntp.High g, None) ∧ nntp.Posting g = nntp.Unknown.
Proof.
  unfold Group, Command, mbind, M_bind, PrintfLine.
  destruct (write_writesOnly (("GROUP " ++ name) ++ CRLF) c) as (e1 & c1 & -> & Hu1 & _).
  destruct e1; [done|].
  destruct (ReadCodeLine_total 211 c1) as (code & msg & e2 & c2 & Hr & _).
  rewrite Hr. destruct e2; [done|]. unfold lift.
  destruct (GroupParse msg) as [[g' e3]|] eqn:Hg; [|done].
  intros [= -> -> ->].
  destruct (ReadCodeLine_taken "2" "1" "1" 211 code msg c1 c') as [Hl _]; [done | lia | done|].
  destruct (GroupParse_success msg g Hg) as (a & b & d & more & ?).
  exists msg, a, b, d, more. by rewrite <- Hu1.
Qed.

Lemma Group_success_only_witness :
  ∃ msg a b d more,
    unread (serverSends ["211 1234 3000234 3002322 misc.test"; "next"])
    = ("211 " ++ msg) :: unread (mkConn ["next"] None None (inl ErrZlib)
                                   [EvWrite ("GROUP misc.test" ++ CRLF);
                                    EvRead "211 1234 3000234 3002322 misc.test"])
    ∧ Split msg SP = a :: b :: d :: "misc.test" :: more
    ∧ ParseInt a = (1234, None) ∧ ParseInt b = (3000234, None)
    ∧ ParseInt d = (3002322, None) ∧ nntp.Unknown = nntp.Unknown.
Proof.
  apply (Group_success_only "misc.test"
           (serverSends ["211 1234 3000234 3002322 misc.test"; "next"])
           (mkConn ["next"] None None (inl ErrZlib)
              [EvWrite ("GROUP misc.test" ++ CRLF); EvRead "211 1234 3000234 3002322 misc.test"])
           (nntp.mkGroup "misc.test" 1234 3002322 3000234 nntp.Unknown)).
  reflexivity.
Defined.

(** ** More on XOVER: the exchange *)

Lemma written_takeLines (n : nat) (c : Conn) : written (takeLines n c) = written c.
Proof.
  unfold written at 1, takeLines. cbn [log]. rewrite written_app.
  induction (take n (unread c)) as [|l ls IH]; simpl; [apply append_nil_r | done].
Qed.

Lemma written_log (c c' : Conn) (l : list event) :
  log c' = (log c ++ l)%list →
  written c'
  = written c
    ++ foldr (fun e acc => match e with EvWrite b => b ++ acc | EvRead _ => acc end) "" l.
Proof. intros H. unfold written at 1. by rewrite H, written_app. Qed.

(** [XOver] up to its goroutine, on a transport that takes the writes and a
    server that answers the two commands. *)
Lemma XOver_request (specifier msg msg' : string) (compress : bool) (c : Conn)
    (raw rest : list string) (headers : list string) (headerFull : gmap string bool) :
  quota c = None → werr c = None →
  unread c = ("215 " ++ msg) :: (raw ++ "." :: ("224 " +:+ msg') :: rest)%list →
  "." ∉ raw →
  Format (msg :: (unstuff <$> raw)) = Ret (headers, headerFull) →
  ∃ c4, unread c4 = rest ∧ zdata c4 = zdata c
    ∧ written c4 = (written c ++ ("LIST OVERVIEW.FMT" ++ CRLF))
                   ++ (((if compress then "XZVER" else "XOVER") ++ " " ++ specifier) ++ CRLF)
    ∧ XOver specifier compress c
      = match Producer headers headerFull compress c4 with
        | Ret (ch, c5) => Ret ((Some ch, None), c5)
        | Panic p => Panic p
        end.
Proof.
  intros Hq Hw Hu Hraw Hf.
  pose proof (PrintfLine_unlimited "LIST OVERVIEW.FMT" c Hq Hw) as Hp.
  destruct (MultilineCommand_answer "LIST OVERVIEW.FMT" msg "2" "1" "5" 215 c _ raw
              (("224 " +:+ msg') :: rest)%list eq_refl ltac:(lia) Hp Hu Hraw)
    as (c2 & Hm & Hu2 & Hq2 & Hw2 & Hz2).
  assert (written c2 = written c ++ ("LIST OVERVIEW.FMT" ++ CRLF)) as Hwr2.
  { revert Hm. unfold MultilineCommand, mbind, M_bind. rewrite Hp.
    erewrite (ReadCodeLine_exact "2" "1" "5" msg 215) by done.
    erewrite ReadDotLines_block by done.
    intros [= Heq]. rewrite <- Heq, written_takeLines.
    match goal with
    | |- written ?x = _ =>
        rewrite (written_log c x [EvWrite ("LIST OVERVIEW.FMT" ++ CRLF);
                                  EvRead ("215 " ++ msg)])
          by (cbn [log]; by rewrite <- app_assoc)
    end.
    simpl. by rewrite append_nil_r. }
  unfold XOver, mbind at 1, M_bind. rewrite Hm.
  unfold mbind at 1, M_bind, lift. rewrite Hf.
  unfold mbind at 1, M_bind. rewrite PrintfLine_unlimited by done.
  unfold mbind at 1, M_bind.
  erewrite (ReadCodeLine_exact "2" "2" "4" msg' 224) by done.
  eexists. refine (conj _ (conj _ (conj _ _)));
    [| | |unfold mbind, M_bind; reflexivity].
  - done.
  - done.
  - match goal with
    | |- written ?x = _ =>
        rewrite (written_log c2 x
                   [EvWrite (((if compress then "XZVER" else "XOVER") ++ " " ++ specifier)
                             ++ CRLF);
                    EvRead ("224 " ++ msg')])
          by (cbn [log]; by rewrite <- app_assoc)
    end.
    simpl. by rewrite append_nil_r, Hwr2.
Qed.

(** The two commands of [XOver], as the server gets them: LIST OVERVIEW.FMT,
    and then XOVER, or XZVER when compression is asked for, with the range.
    Nothing else is written. *)
Theorem XOver_commands (specifier msg msg' : string) (compress : bool) (c : Conn)
    (raw rest : list string) :
  quota c = None → werr c = None →
  unread c = ("215 " ++ msg) :: (raw ++ "." :: ("224 " +:+ msg') :: rest)%list →
  "." ∉ raw → Forall hasColon (unstuff <$> raw) →
  ∃ ch c', XOver specifier compress c = Ret ((Some ch, None), c')
    ∧ written c' = (written c ++ ("LIST OVERVIEW.FMT" ++ CRLF))
                   ++ (((if compress then "XZVER" else "XOVER") ++ " " ++ specifier) ++ CRLF).
Proof.
  intros Hq Hw Hu Hraw Hcol.
  destruct (forRange_FormatBody_columns _ ["Article"] ∅ Hcol) as (names & hf & Hf & _).
  destruct (XOver_request specifier msg msg' compress c raw rest _ hf Hq Hw Hu Hraw Hf)
    as (c4 & _ & _ & Hwr & ->).
  unfold Producer. destruct compress.
  - destruct (zdata c4); eexists _, _; (split; [reflexivity | done]).
  - unfold mbind, M_bind, DotReader.
    destruct (dotLines (unread c4) [] 0) as [[v e] n].
    eexists _, _. split; [reflexivity|]. by rewrite written_takeLines.
Qed.

Lemma XOver_commands_witness :
  ∃ ch c', XOver "100-200" true
             (serverSends ["215 Order of fields"; "Subject:"; "."; "224 compressed data follows"])
           = Ret ((Some ch, None), c')
    ∧ written c'
      = (written (serverSends ["215 Order of fields"; "Subject:"; ".";
                               "224 compressed data follows"])
         ++ ("LIST OVERVIEW.FMT" ++ CRLF))
        ++ (((if true then "XZVER" else "XOVER") ++ " " ++ "100-200") ++ CRLF).
Proof.
  apply (XOver_commands "100-200" "Order of fields" "compressed data follows" true
           (serverSends ["215 Order of fields"; "Subject:"; "."; "224 compressed data follows"])
           ["Subject:"] []); try reflexivity.
  - compute_done.
  - repeat constructor; compute_done.
Defined.

(** With compression the records come from the zlib reader and not from the
    dot reader: the channel carries the records of what that reader gives, or,
    when the reader cannot be made, the one record of its error; [XOver]
    itself returns no error either way. *)
Theorem XOver_compressed (specifier msg msg' : string) (c : Conn) (raw rest : list string)
    (headers : list string) (headerFull : gmap string bool) :
  quota c = None → werr c = None →
  unread c = ("215 " ++ msg) :: (raw ++ "." :: ("224 " +:+ msg') :: rest)%list →
  "." ∉ raw →
  Format (msg :: (unstuff <$> raw)) = Ret (headers, headerFull) →
  ∃ c', XOver specifier true c
        = Ret ((Some match zdata c with
                     | inl e => mkChan [mkOverview ∅ (Some e)] Closed
                     | inr zr => Scan headers headerFull (srcLines zr) (srcErr zr)
                     end, None), c').
Proof.
  intros Hq Hw Hu Hraw Hf.
  destruct (XOver_request specifier msg msg' true c raw rest _ _ Hq Hw Hu Hraw Hf)
    as (c4 & Hu4 & Hz4 & _ & ->).
  unfold Producer. rewrite Hz4. exists c4. by destruct (zdata c).
Qed.

Lemma XOver_compressed_witness :
  ∃ c', XOver "100-200" true
          (mkConn ["215 Order of fields"; "Subject:"; "."; "224 compressed data follows";
                   "not lines"] None None (inl ErrZlib) [])
        = Ret ((Some match (inl ErrZlib : error + Source) with
                     | inl e => mkChan [mkOverview ∅ (Some e)] Closed
                     | inr zr => Scan ["Article"; "Subject"] {[ "Subject" := false ]}
                                   (srcLines zr) (srcErr zr)
                     end, None), c').
Proof.
  apply (XOver_compressed "100-200" "Order of fields" "compressed data follows"
           (mkConn ["215 Order of fields"; "Subject:"; "."; "224 compressed data follows";
                    "not lines"] None None (inl ErrZlib) [])
           ["Subject:"] ["not lines"]); try reflexivity.
  compute_done.
Defined.

(** When LIST OVERVIEW.FMT is not answered with 215, or the connection ends
    before the closing dot of its block, [XOver] returns the error and no
    channel, and the XOVER command is not sent. *)
Theorem XOver_without_format (specifier : string) (compress : bool) (c c1 : Conn) :
  PrintfLine "LIST OVERVIEW.FMT" c = Ret (None, c1) →
  ((∀ msg rest, unread c ≠ ("215 " ++ msg) :: rest)
   ∨ ∃ msg raw, unread c = ("215 " ++ msg) :: raw ∧ "." ∉ raw) →
  ∃ e c', XOver specifier compress c = Ret ((None, Some e), c')
    ∧ written c' = written c ++ ("LIST OVERVIEW.FMT" ++ CRLF).
Proof.
  intros Hw Hcase.
  destruct (PrintfLine_ok _ _ _ Hw) as (Hu1 & _ & _ & Hlog1).
  unfold XOver, MultilineCommand, mbind, M_bind. rewrite Hw.
  destruct Hcase as [Hno|(msg & raw & Hu & Hdot)].
  - destruct (ReadCodeLine_total 215 c1) as (code & m & err & c2 & Hr & _ & _ & _ & Hcase).
    rewrite Hr. destruct err as [e|].
    + exists e, c2. split; [done|].
      destruct Hcase as [(_ & -> & _)|(l & _ & Hlog2)].
      * by apply written_write.
      * by rewrite (written_read _ _ _ Hlog2), (written_write _ _ _ Hlog1).
    + exfalso. destruct (ReadCodeLine_taken "2" "1" "5" 215 code m c1 c2) as [Hl _];
        [done | lia | done|].
      rewrite Hu1 in Hl. by apply (Hno m (unread c2)).
  - rewrite Hu in Hu1.
    rewrite (ReadCodeLine_exact "2" "1" "5" msg 215 c1 _) by done.
    unfold ReadDotLines. cbn [unread]. rewrite dotLines_eof by done.
    eexists _, _. split; [reflexivity|]. rewrite written_takeLines.
    erewrite written_read by reflexivity. by apply written_write.
Qed.

Lemma XOver_without_format_witness :
  ∃ e c', XOver "100-200" false (serverSends ["215 Order of fields"; "Subject:"])
          = Ret ((None, Some e), c')
    ∧ written c' = written (serverSends ["215 Order of fields"; "Subject:"])
                   ++ ("LIST OVERVIEW.FMT" ++ CRLF).
Proof.
  apply (XOver_without_format "100-200" false
           (serverSends ["215 Order of fields"; "Subject:"])
           (mkConn ["215 Order of fields"; "Subject:"] None None (inl ErrZlib)
              [EvWrite ("LIST OVERVIEW.FMT" ++ CRLF)])).
  - reflexivity.
  - right. exists "Order of fields", ["Subject:"]. split; [reflexivity | compute_done].
Defined.

(** ** More on XOVER: the format and the records *)

Lemma forRange_app {A S : Type} (body : S → A → outcome S) (l1 l2 : list A) (s : S) :
  forRange body (l1 ++ l2) s = forRange body l1 s ≫= forRange body l2.
Proof.
  revert s. induction l1 as [|x l1 IH]; intros s; simpl; [done|].
  destruct (body s x); simpl; [apply IH | done].
Qed.

(** The format that [Format] returns: one column for the article number and
    one for each line of the block, and a flag for each name of the block and
    for no other name, so that the article number has none unless the server
    lists a column Article. *)
Theorem Format_shape (msg : string) (block headers : list string)
    (headerFull : gmap string bool) :
  Format (msg :: block) = Ret (headers, headerFull) →
  ∃ names, headers = "Article" :: names ∧ length names = length block
    ∧ dom headerFull = list_to_set names.
Proof.
  rewrite Format_lines.
  assert (∀ ls hs hf hs' hf',
            forRange FormatBody ls (hs, hf) = Ret (hs', hf') →
            ∃ names, hs' = (hs ++ names)%list ∧ length names = length ls
              ∧ dom hf' = dom hf ∪ list_to_set names) as Hgen.
  { induction ls as [|x ls IH]; intros hs hf hs' hf'; cbn [forRange].
    - intros [= <- <-]. exists []. rewrite app_nil_r. simpl.
      by rewrite union_empty_r_L.
    - destruct (FormatBody_cases hs hf x) as [(h & f & _ & _ & ->)|[_ ->]]; [|done].
      simpl. intros Hrun. destruct (IH _ _ _ _ Hrun) as (names & -> & Hlen & Hdom).
      exists (h :: names). rewrite <- app_assoc. simpl. split; [done|].
      split; [by rewrite Hlen|].
      by rewrite Hdom, dom_insert_L, (assoc_L (∪)), (comm_L (∪) {[h]}). }
  intros Hf. destruct (Hgen _ _ _ _ _ Hf) as (names & -> & Hlen & Hdom).
  exists names. rewrite Hdom, dom_empty_L. by rewrite union_empty_l_L.
Qed.

Lemma Format_shape_witness :
  ∃ names, ["Article"; "Subject"; "Xref"] = "Article" :: names
    ∧ length names = length ["Subject:"; "Xref:full"]
    ∧ dom ({[ "Subject" := false; "Xref" := true ]} : gmap string bool) = list_to_set names.
Proof.
  apply (Format_shape "Order of fields" ["Subject:"; "Xref:full"]). by vm_compute.
Defined.

(** When the server lists a name more than once, the flag of the name is the
    one of its last line. *)
Theorem Format_last_flag (msg : string) (pre post headers : list string)
    (headerFull : gmap string bool) (h f : string) :
  Format (msg :: (pre ++ (h +:+ String COLON f) :: post)%list) = Ret (headers, headerFull) →
  ¬ hasColon h →
  (∀ l f', l ∈ post → l ≠ h ++ String COLON f') →
  headerFull !! h = Some (bool_decide (f = "full")).
Proof.
  rewrite Format_lines, forRange_app. intros Hrun Hh Hpost.
  destruct (forRange FormatBody pre (["Article"], ∅)) as [[hs hf]|]; [|done].
  unfold mbind, outcome_bind in Hrun. cbn [forRange] in Hrun.
  destruct (FormatBody_cases hs hf (h ++ String COLON f))
    as [(h' & f' & Heq & Hh' & Hb)|[Hno _]].
  - assert (h' = h ∧ f' = f) as [-> ->].
    { pose proof (proj2 (cut_Some (h ++ String COLON f) COLON h f) (conj eq_refl Hh)) as H1.
      pose proof (proj2 (cut_Some (h ++ String COLON f) COLON h' f') (conj Heq Hh')) as H2.
      rewrite H1 in H2. by injection H2 as -> ->. }
    rewrite Hb in Hrun. unfold mbind, outcome_bind in Hrun.
    assert (∀ ls hs0 hf0 hs1 hf1,
              (∀ l f', l ∈ ls → l ≠ h ++ String COLON f') →
              forRange FormatBody ls (hs0, hf0) = Ret (hs1, hf1) →
              hf1 !! h = hf0 !! h) as Hkeep.
    { clear. induction ls as [|x ls IH]; intros hs0 hf0 hs1 hf1 Hls; cbn [forRange].
      - by intros [= _ <-].
      - destruct (FormatBody_cases hs0 hf0 x) as [(h' & f' & Hx & _ & ->)|[_ ->]]; [|done].
        simpl. intros Hrun.
        assert (∀ l f', l ∈ ls → l ≠ h ++ String COLON f') as Hls'
          by (intros l f0 Hl; apply Hls; by right).
        rewrite (IH _ _ _ _ Hls' Hrun).
        apply lookup_insert_ne. intros ->. by apply (Hls x f'); [left|]. }
    rewrite (Hkeep _ _ _ _ _ Hpost Hrun). apply lookup_insert_eq.
  - exfalso. apply Hno. unfold hasColon.
    clear. induction h as [|a h IH]; simpl; [left | by right].
Qed.

Lemma Format_last_flag_witness :
  ({[ "Xref" := true ]} : gmap string bool) !! "Xref" = Some (bool_decide ("full" = "full")).
Proof.
  apply (Format_last_flag "Order of fields" ["Xref:"] [] ["Article"; "Xref"; "Xref"]
           {[ "Xref" := true ]} "Xref" "full").
  - by vm_compute.
  - compute_done.
  - intros l f' Hl. by apply elem_of_nil in Hl.
Defined.

Lemma index_Ret {A} (a : list A) (i : nat) (x : A) : index a i = Ret x → a !! i = Some x.
Proof. unfold index. destruct (a !! i); [by intros [= ->] | done]. Qed.

Lemma index_Panic {A} (a : list A) (i : nat) (p : panic) :
  index a i = Panic p → p = IndexOutOfRange i (length a) ∧ (length a ≤ i)%nat.
Proof.
  unfold index. destruct (a !! i) eqn:H; [done|]. intros [= <-].
  by apply lookup_ge_None in H.
Qed.

Section Stream.

Context (headers : list string) (headerFull : gmap string bool).

Lemma Decode_Err (l : string) (o : Overview) :
  Decode headers headerFull l = Ret o → Err o = None.
Proof.
  unfold Decode. destruct (DecodeFields _ _ _ _ _); simpl; [|done]. by intros [= <-].
Qed.

(** A record with an error is the last one that the goroutine sends, and the
    channel is closed after it. *)
Theorem Scan_error_is_last (ls : list string) (fin : option error)
    (pre post : list Overview) (o : Overview) :
  sent (Scan headers headerFull ls fin) = (pre ++ o :: post)%list →
  Err o ≠ None →
  post = [] ∧ final (Scan headers headerFull ls fin) = Closed.
Proof.
  revert pre. induction ls as [|l ls IH]; intros pre; simpl.
  - destruct fin; simpl; destruct pre as [|? [|? ?]]; try done.
    by intros [= <- <-].
  - destruct (_ <=? _); simpl.
    { destruct pre as [|? [|? ?]]; try done. by intros [= <- <-]. }
    destruct (Decode headers headerFull l) as [o1|] eqn:Hd; simpl.
    + destruct pre as [|o' pre]; simpl.
      * intros [= <- _] Herr. by rewrite (Decode_Err _ _ Hd) in Herr.
      * intros [= _ Hs] Herr. by apply (IH pre).
    + by destruct pre.
Qed.

(** When every line fits the scanner and is decoded, the channel carries one
    record for each line, in the order of the lines, then a record of the
    error of the reader if it ended with one, and is closed. *)
Theorem Scan_all_lines (ls : list string) (recs : list Overview) (fin : option error) :
  Forall2 (decodes headers headerFull) ls recs →
  Scan headers headerFull ls fin
  = mkChan (recs ++ match fin with
                    | Some e => [mkOverview ∅ (Some e)]
                    | None => []
                    end) Closed.
Proof.
  intros H. rewrite <- (app_nil_r ls), (Scan_app _ _ _ _ _ _ H). simpl.
  by destruct fin.
Qed.

(** A key that no column of the fields has stays as it was. *)
Lemma DecodeFields_other (fields : list string) (i : nat) (o o' : MIMEHeader) (key : string) :
  DecodeFields headers headerFull fields i o = Ret o' →
  (∀ k h, (k < length fields)%nat → headers !! (i + k)%nat = Some h →
     CanonicalMIMEHeaderKey h ≠ key) →
  o' !! key = o !! key.
Proof.
  revert i o. induction fields as [|val r IH]; intros i o; cbn [DecodeFields].
  - by intros [= <-].
  - destruct (index headers i) as [h|] eqn:Hh; simpl; [|done]. apply index_Ret in Hh.
    destruct (if default false (headerFull !! h) then index (SplitN2 val COLON) 1 else Ret val)
      as [v|]; simpl; [|done].
    intros Hrun Hkeys. rewrite (IH _ _ Hrun).
    + unfold MIMEHeader_Set. apply lookup_insert_ne.
      apply (Hkeys 0%nat h); [simpl; lia | by rewrite Nat.add_0_r].
    + intros k h' Hk Hh'. apply (Hkeys (S k) h'); [simpl; lia|].
      by replace (i + S k)%nat with (S i + k)%nat by lia.
Qed.

Lemma DecodeFields_field (fields : list string) (i : nat) (o o' : MIMEHeader)
    (j : nat) (val h : string) :
  DecodeFields headers headerFull fields i o = Ret o' →
  fields !! j = Some val → headers !! (i + j)%nat = Some h →
  (∀ k h', (j < k < length fields)%nat → headers !! (i + k)%nat = Some h' →
     CanonicalMIMEHeaderKey h' ≠ CanonicalMIMEHeaderKey h) →
  (headerFull !! h ≠ Some true → o' !! CanonicalMIMEHeaderKey h = Some [val])
  ∧ (headerFull !! h = Some true →
     ∃ p v, val = p ++ String COLON v ∧ ¬ hasColon p
            ∧ o' !! CanonicalMIMEHeaderKey h = Some [v]).
Proof.
  revert i o j. induction fields as [|x r IH]; intros i o j; cbn [DecodeFields]; [done|].
  destruct (index headers i) as [h0|] eqn:Hh0; simpl; [|done]. apply index_Ret in Hh0.
  destruct (if default false (headerFull !! h0) then index (SplitN2 x COLON) 1 else Ret x)
    as [v0|] eqn:Hv0; simpl; [|done].
  intros Hrun Hj Hh Hlater. destruct j as [|j]; simpl in Hj.
  - injection Hj as ->. rewrite Nat.add_0_r, Hh0 in Hh. injection Hh as ->.
    assert (o' !! CanonicalMIMEHeaderKey h = Some [v0]) as Hlook.
    { rewrite (DecodeFields_other _ _ _ _ _ Hrun).
      - apply lookup_insert_eq.
      - intros k h' Hk Hh'. apply (Hlater (S k) h'); [simpl; lia|].
        by replace (i + S k)%nat with (S i + k)%nat by lia. }
    split.
    + intros Hplain. rewrite Hlook.
      destruct (headerFull !! h) as [[]|]; simpl in Hv0; [done | by injection Hv0 as ->..].
    + intros Hfull. rewrite Hfull in Hv0. simpl in Hv0. unfold SplitN2 in Hv0.
      destruct (cut val COLON) as [[p v]|] eqn:Hcut; [|done].
      injection Hv0 as ->. apply cut_Some in Hcut as [-> Hp]. by exists p, v0.
  - apply (IH (S i) _ j Hrun Hj).
    + by replace (S i + j)%nat with (i + S j)%nat by lia.
    + intros k h' Hk Hh'. apply (Hlater (S k) h'); [simpl; lia|].
      by replace (i + S k)%nat with (S i + k)%nat by lia.
Qed.

(** The record of a line maps the column of a field, when no later field of
    the line has a column of the same canonical name, to the field itself
    for a plain column, and to the text after the first colon of the field
    for a full column. *)
Theorem Decode_field (l : string) (o : Overview) (j : nat) (val h : string) :
  Decode headers headerFull l = Ret o →
  Split l TAB !! j = Some val → headers !! j = Some h →
  (∀ k h', (j < k < length (Split l TAB))%nat → headers !! k = Some h' →
     CanonicalMIMEHeaderKey h' ≠ CanonicalMIMEHeaderKey h) →
  (headerFull !! h ≠ Some true → Headers o !! CanonicalMIMEHeaderKey h = Some [val])
  ∧ (headerFull !! h = Some true →
     ∃ p v, val = p ++ String COLON v ∧ ¬ hasColon p
            ∧ Headers o !! CanonicalMIMEHeaderKey h = Some [v]).
Proof.
  unfold Decode.
  destruct (DecodeFields headers headerFull (Split l TAB) 0 ∅) as [m|] eqn:Hd; simpl; [|done].
  intros [= <-] Hj Hh Hlater. simpl.
  by apply (DecodeFields_field _ 0 ∅ m j val h Hd).
Qed.

Lemma DecodeFields_extra (fields : list string) (i : nat) (o : MIMEHeader) :
  (i ≤ length headers < i + length fields)%nat →
  (∀ k val h, fields !! k = Some val → headers !! (i + k)%nat = Some h →
     headerFull !! h = Some true → hasColon val) →
  DecodeFields headers headerFull fields i o
  = Panic (IndexOutOfRange (length headers) (length headers)).
Proof.
  revert i o. induction fields as [|x r IH]; intros i o Hlen Hfull; cbn [DecodeFields].
  - simpl in Hlen. lia.
  - simpl in Hlen. destruct (index headers i) as [h|p] eqn:Hh; simpl.
    + apply index_Ret in Hh. apply lookup_lt_Some in Hh as Hi.
      assert (∃ v, (if default false (headerFull !! h)
                    then index (SplitN2 x COLON) 1 else Ret x) = Ret v) as [v ->].
      { destruct (headerFull !! h) as [[]|] eqn:Hf; simpl; [|by eexists..].
        assert (hasColon x) as Hc
          by (apply (Hfull 0%nat x h); [done | by rewrite Nat.add_0_r | done]).
        unfold SplitN2. destruct (cut x COLON) as [[a b]|] eqn:Hcut; [by eexists|].
        by apply cut_None in Hcut. }
      simpl. apply IH; [lia|].
      intros k val h' Hk Hh'. apply (Hfull (S k) val h'); [done|].
      by replace (i + S k)%nat with (S i + k)%nat by lia.
    + apply index_Panic in Hh as [-> Hi]. by replace i with (length headers) by lia.
Qed.

(** A line with more fields than there are columns makes the goroutine
    panic, on the index of the first field without a column (the fields of
    the full columns having their colon). *)
Theorem Decode_extra_fields (l : string) :
  (length headers < length (Split l TAB))%nat →
  (∀ k val h, Split l TAB !! k = Some val → headers !! k = Some h →
     headerFull !! h = Some true → hasColon val) →
  Decode headers headerFull l = Panic (IndexOutOfRange (length headers) (length headers)).
Proof.
  intros Hlen Hfull. unfold Decode.
  rewrite DecodeFields_extra; [done | simpl; lia | done].
Qed.

End Stream.

Lemma Scan_error_is_last_witness :
  ([] : list Overview) = []
  ∧ final (Scan ["Article"; "Subject"] {[ "Subject" := false ]}
             ["1" ++ String TAB "first"] (Some ErrUnexpectedEOF)) = Closed.
Proof.
  apply (Scan_error_is_last ["Article"; "Subject"] {[ "Subject" := false ]}
           ["1" ++ String TAB "first"] (Some ErrUnexpectedEOF)
           [mkOverview {[ "Article" := ["1"]; "Subject" := ["first"] ]} None] []
           (mkOverview ∅ (Some ErrUnexpectedEOF))).
  - by vm_compute.
  - done.
Defined.

Lemma Scan_all_lines_witness :
  Scan ["Article"; "Subject"] {[ "Subject" := false ]}
    ["1" ++ String TAB "first"; "2" ++ String TAB "second"] None
  = mkChan ([mkOverview {[ "Article" := ["1"]; "Subject" := ["first"] ]} None;
             mkOverview {[ "Article" := ["2"]; "Subject" := ["second"] ]} None] ++ []) Closed.
Proof.
  apply (Scan_all_lines ["Article"; "Subject"] {[ "Subject" := false ]}
           ["1" ++ String TAB "first"; "2" ++ String TAB "second"]
           [mkOverview {[ "Article" := ["1"]; "Subject" := ["first"] ]} None;
            mkOverview {[ "Article" := ["2"]; "Subject" := ["second"] ]} None] None).
  repeat constructor; by vm_compute.
Defined.

Lemma Decode_field_witness :
  let headers := ["Article"; "Subject"; "Xref"] in
  let headerFull : gmap string bool := {[ "Subject" := false; "Xref" := true ]} in
  let o := mkOverview {[ "Article" := ["7"]; "Subject" := ["Re: a:b"];
                         "Xref" := [" news.example.org misc.test:7"] ]} None in
  (headerFull !! "Xref" ≠ Some true
   → Headers o !! CanonicalMIMEHeaderKey "Xref" = Some ["Xref: news.example.org misc.test:7"])
  ∧ (headerFull !! "Xref" = Some true →
     ∃ p v, "Xref: news.example.org misc.test:7" = p ++ String COLON v ∧ ¬ hasColon p
            ∧ Headers o !! CanonicalMIMEHeaderKey "Xref" = Some [v]).
Proof.
  apply (Decode_field ["Article"; "Subject"; "Xref"]
           {[ "Subject" := false; "Xref" := true ]}
           ("7" ++ String TAB ("Re: a:b" ++ String TAB "Xref: news.example.org misc.test:7"))
           (mkOverview {[ "Article" := ["7"]; "Subject" := ["Re: a:b"];
                          "Xref" := [" news.example.org misc.test:7"] ]} None)
           2 "Xref: news.example.org misc.test:7" "Xref").
  - by vm_compute.
  - reflexivity.
  - reflexivity.
  - intros k h' Hk. vm_compute in Hk. lia.
Defined.

Lemma Decode_extra_fields_witness :
  Decode ["Article"; "Subject"] {[ "Subject" := false ]}
    ("7" ++ String TAB ("hello" ++ String TAB "extra"))
  = Panic (IndexOutOfRange (length ["Article"; "Subject"]) (length ["Article"; "Subject"])).
Proof.
  apply (Decode_extra_fields ["Article"; "Subject"] {[ "Subject" := false ]}
           ("7" ++ String TAB ("hello" ++ String TAB "extra"))).
  - vm_compute. lia.
  - intros [|[|[|k]]] val h; simpl; try done.
    + intros _ [= <-]. by vm_compute.
    + intros _ [= <-]. by vm_compute.
Defined.

(** ** More on POST *)

(** A failure of the writer while the closing dot is written is not
    reported: when the article itself was copied without an error and the
    server still answers 240, [Post] returns no error. *)
Theorem Post_close_error_unreported (r : Reader) (c c1 c2 c3 c4 : Conn) (msg m : string)
    (w : dotWriter) (n : nat) (e : error) (rest : list string) :
  PrintfLine "POST" c = Ret (None, c1) →
  ReadCodeLine 340 c1 = Ret ((340, msg, None), c2) →
  Copy DotWriter r c2 = Ret ((w, n, None), c3) →
  dotWriter_Close w c3 = Ret (Some e, c4) →
  unread c2 = ("240 " ++ m) :: rest →
  ∃ c5, Post r c = Ret (None, c5) ∧ unread c5 = rest.
Proof.
  intros Hw Hr Hcopy Hclose Hu.
  destruct (Copy_writesOnly DotWriter r c2) as (? & ? & ? & c3' & Hc & Hu3 & _).
  rewrite Hcopy in Hc. injection Hc as <- <- <- <-.
  destruct (dotWriter_Close_writesOnly w c3) as (? & c4' & Hc & Hu4 & _).
  rewrite Hclose in Hc. injection Hc as <- <-.
  unfold Post, mbind, M_bind. rewrite Hw, Hr, Hcopy, Hclose.
  rewrite (ReadCodeLine_exact "2" "4" "0" m 240 c4 rest)
    by (try done; rewrite Hu4, Hu3; exact Hu).
  by eexists.
Qed.

Lemma Post_close_error_unreported_witness :
  ∃ c5, Post (mkReader ("hi" ++ String LF "") None)
          (mkConn ["340 send article"; "240 article received"] (Some 10%nat) None
             (inl ErrZlib) [])
        = Ret (None, c5) ∧ unread c5 = [].
Proof.
  eapply (Post_close_error_unreported (mkReader ("hi" ++ String LF "") None)
            (mkConn ["340 send article"; "240 article received"] (Some 10%nat) None
               (inl ErrZlib) [])
            _ _ _ _ "send article" "article received" _ _ ErrWrite []).
  - vm_compute. reflexivity.
  - vm_compute. reflexivity.
  - vm_compute. reflexivity.
  - vm_compute. reflexivity.
  - reflexivity.
Defined.

Lemma substring_split (n : nat) (p : string) :
  (n ≤ String.length p)%nat →
  substring 0 n p ++ substring n (String.length p - n) p = p.
Proof.
  revert n. induction p as [|a p IH]; intros [|n] Hn; simpl in *; try done; try lia.
  - by rewrite substring_all.
  - change (String a (substring 0 n p ++ substring n (String.length p - n) p) = String a p).
    rewrite IH by lia. done.
Qed.

Lemma sends_trans (c1 c2 c3 : Conn) (b1 b2 b3 s t : string) :
  sends c1 b1 c2 b2 s → sends c2 b2 c3 b3 t → sends c1 b1 c3 b3 (s ++ t).
Proof.
  intros (_ & _ & Hu1 & Hw1) (? & ? & Hu2 & Hw2). repeat split; try done.
  - by rewrite Hu2.
  - by rewrite Hw2, Hw1, append_assoc.
Qed.

Lemma write_sends (b : string) (c : Conn) :
  quota c = None → werr c = None →
  ∃ c', write b c = Ret (None, c') ∧ sends c b c' "" "".
Proof.
  intros Hq Hw. unfold write. rewrite Hw, Hq. eexists. split; [reflexivity|].
  repeat split. rewrite !append_nil_r. by apply written_write.
Qed.

Lemma bufio_Flush_sends (buf : string) (c : Conn) :
  quota c = None → werr c = None →
  ∃ c', bufio_Flush buf c = Ret (("", None), c') ∧ sends c buf c' "" "".
Proof.
  intros Hq Hw. unfold bufio_Flush. rewrite Hw.
  case_bool_decide as Hb.
  - subst buf. exists c. split; [done|]. repeat split; try done.
    by rewrite !append_nil_r.
  - unfold mbind, M_bind, mret, M_ret.
    destruct (write_sends buf c Hq Hw) as (c' & -> & Hs). by exists c'.
Qed.

Lemma bufio_WriteByte_sends (a : ascii) (buf : string) (c : Conn) :
  quota c = None → werr c = None →
  ∃ c' buf', bufio_WriteByte a buf c = Ret ((buf', None), c')
    ∧ sends c buf c' buf' (String a "").
Proof.
  intros Hq Hw. unfold bufio_WriteByte, mbind, M_bind, mret, M_ret.
  rewrite writerErr_eq, Hw.
  destruct (Available buf <=? 0)%nat.
  - destruct (bufio_Flush_sends buf c Hq Hw) as (c' & -> & Hs).
    eexists _, _. split; [reflexivity|].
    destruct Hs as (? & ? & ? & Hwr). repeat split; try done.
    rewrite !append_nil_r in Hwr. by rewrite Hwr.
  - eexists _, _. split; [reflexivity|]. repeat split; try done.
    by rewrite append_assoc.
Qed.

Lemma bufio_Write_sends (p buf : string) (c : Conn) :
  quota c = None → werr c = None →
  ∃ c' buf', bufio_Write p buf c = Ret ((buf', None), c') ∧ sends c buf c' buf' p.
Proof.
  assert (∀ q c, quota c = None → werr c = None → ∃ c' buf',
             (if (String.length q <=? defaultBufSize)%nat then mret (q, None)
              else err ← write q; mret ("", err)) c = Ret ((buf', None), c')
             ∧ sends c "" c' buf' q) as Hdirect.
  { intros q c0 Hq Hw. destruct (String.length q <=? defaultBufSize)%nat.
    - eexists _, _. split; [reflexivity|]. repeat split; try done.
      by rewrite append_nil_r.
    - unfold mbind, M_bind, mret, M_ret.
      destruct (write_sends q c0 Hq Hw) as (c' & -> & Hs).
      eexists _, _. split; [reflexivity|].
      destruct Hs as (? & ? & ? & Hwr). repeat split; try done.
      rewrite !append_nil_r in *. by rewrite Hwr. }
  intros Hq Hw. unfold bufio_Write. unfold mbind at 1, M_bind at 1.
  rewrite writerErr_eq, Hw.
  destruct (Nat.leb_spec (String.length p) (Available buf)) as [Hle|Hlt].
  - eexists _, _. split; [reflexivity|]. repeat split; try done. by rewrite append_assoc.
  - case_bool_decide as Hb.
    + subst buf. apply Hdirect; done.
    + unfold mbind, M_bind.
      destruct (bufio_Flush_sends (buf ++ substring 0 (Available buf) p) c Hq Hw)
        as (c1 & -> & Hs1).
      destruct (Hdirect (substring (Available buf) (String.length p - Available buf) p) c1)
        as (c2 & buf2 & H2 & Hs2); [apply Hs1..|].
      unfold mbind, M_bind in H2. rewrite H2.
      eexists _, _. split; [reflexivity|].
      destruct Hs1 as (_ & _ & Hu1 & Hwr1), Hs2 as (? & ? & Hu2 & Hwr2).
      repeat split; try done; [by rewrite Hu2|].
      rewrite Hwr2. rewrite !append_nil_r in *. rewrite Hwr1.
      rewrite !append_assoc. do 2 f_equal. apply substring_split. lia.
Qed.

Lemma dotWriter_Write_data (l rest : string) (n : nat) (buf : string) (c : Conn) :
  textLine l → quota c = None → werr c = None →
  ∃ c' buf', sends c buf c' buf' (l ++ CRLF)
    ∧ dotWriter_Write (l ++ String LF rest) (mkDotWriter wstateData buf) n c
      = dotWriter_Write rest (mkDotWriter wstateBeginLine buf')
          (n + S (String.length l))%nat c'.
Proof.
  revert n buf c. induction l as [|a l IH]; intros n buf c [Hlf Hcr] Hq Hw.
  - change ("" ++ String LF rest) with (String LF rest).
    cbn [dotWriter_Write]. unfold dotWriterByte, dotWriterData, mbind, M_bind, mret, M_ret.
    cbn [state W]. change (Ascii.eqb LF LF) with true. cbn iota.
    destruct (bufio_WriteByte_sends CR buf c Hq Hw) as (c1 & b1 & -> & Hs1). cbn beta iota.
    destruct (bufio_WriteByte_sends LF b1 c1) as (c2 & b2 & -> & Hs2); [apply Hs1..|].
    cbn beta iota. exists c2, b2. split; [exact (sends_trans _ _ _ _ _ _ _ _ Hs1 Hs2)|].
    by rewrite Nat.add_1_r.
  - simpl in Hlf, Hcr. apply not_elem_of_cons in Hlf as [Hlf1 Hlf], Hcr as [Hcr1 Hcr].
    change (String a l ++ String LF rest) with (String a (l ++ String LF rest)).
    cbn [dotWriter_Write]. unfold dotWriterByte, dotWriterData, mbind, M_bind, mret, M_ret.
    cbn [state W].
    rewrite (proj2 (Ascii.eqb_neq a LF)), (proj2 (Ascii.eqb_neq a CR)) by congruence.
    cbn beta iota.
    destruct (bufio_WriteByte_sends a buf c Hq Hw) as (c1 & b1 & -> & Hs1). cbn beta iota.
    destruct (IH (S n) b1 c1 (conj Hlf Hcr)) as (c2 & b2 & Hs2 & ->); [apply Hs1..|].
    exists c2, b2. split; [exact (sends_trans _ _ _ _ _ _ _ _ Hs1 Hs2)|].
    simpl. f_equal. lia.
Qed.

Lemma dotWriter_Write_line (l rest : string) (st : wstate) (n : nat) (buf : string)
    (c : Conn) :
  st = wstateBegin ∨ st = wstateBeginLine →
  textLine l → quota c = None → werr c = None →
  ∃ c' buf', sends c buf c' buf' (stuff l ++ CRLF)
    ∧ dotWriter_Write (l ++ String LF rest) (mkDotWriter st buf) n c
      = dotWriter_Write rest (mkDotWriter wstateBeginLine buf')
          (n + S (String.length l))%nat c'.
Proof.
  intros Hst Hl Hq Hw.
  destruct l as [|a l].
  - change ("" ++ String LF rest) with (String LF rest).
    cbn [dotWriter_Write]. unfold dotWriterByte, dotWriterData, mbind, M_bind, mret, M_ret.
    cbn [state W].
    destruct Hst as [-> | ->];
      change (Ascii.eqb LF DOT) with false; change (Ascii.eqb LF LF) with true; cbn beta iota;
      destruct (bufio_WriteByte_sends CR buf c Hq Hw) as (c1 & b1 & -> & Hs1); cbn beta iota;
      (destruct (bufio_WriteByte_sends LF b1 c1) as (c2 & b2 & -> & Hs2); [apply Hs1..|]);
      cbn beta iota; exists c2, b2;
      (split; [exact (sends_trans _ _ _ _ _ _ _ _ Hs1 Hs2)|]);
      by rewrite Nat.add_1_r.
  - destruct Hl as [Hlf Hcr]. simpl in Hlf, Hcr.
    apply not_elem_of_cons in Hlf as [Hlf1 Hlf], Hcr as [Hcr1 Hcr].
    change (String a l ++ String LF rest) with (String a (l ++ String LF rest)).
    cbn [dotWriter_Write stuff].
    unfold dotWriterByte, dotWriterData, mbind, M_bind, mret, M_ret. cbn [state W].
    rewrite (proj2 (Ascii.eqb_neq a LF)), (proj2 (Ascii.eqb_neq a CR)) by congruence.
    destruct (Ascii.eqb a DOT) eqn:Hdot.
    + destruct Hst as [-> | ->]; cbn beta iota;
        destruct (bufio_WriteByte_sends DOT buf c Hq Hw) as (c1 & b1 & -> & Hs1);
        cbn beta iota;
        (destruct (bufio_WriteByte_sends a b1 c1) as (c2 & b2 & -> & Hs2); [apply Hs1..|]);
        cbn beta iota;
        (destruct (dotWriter_Write_data l rest (S n) b2 c2 (conj Hlf Hcr))
           as (c3 & b3 & Hs3 & ->); [apply Hs2..|]);
        exists c3, b3;
        (split; [exact (sends_trans _ _ _ _ _ _ _ _ Hs1
                          (sends_trans _ _ _ _ _ _ _ _ Hs2 Hs3))|]);
        simpl; f_equal; lia.
    + destruct Hst as [-> | ->]; cbn beta iota;
        destruct (bufio_WriteByte_sends a buf c Hq Hw) as (c1 & b1 & -> & Hs1);
        cbn beta iota;
        (destruct (dotWriter_Write_data l rest (S n) b1 c1 (conj Hlf Hcr))
           as (c2 & b2 & Hs2 & ->); [apply Hs1..|]);
        exists c2, b2; (split; [exact (sends_trans _ _ _ _ _ _ _ _ Hs1 Hs2)|]);
        simpl; f_equal; lia.
Qed.

Lemma dotWriter_Write_lines (ls : list string) (st : wstate) (n : nat) (buf : string)
    (c : Conn) :
  st = wstateBegin ∨ st = wstateBeginLine →
  Forall textLine ls → quota c = None → werr c = None →
  ∃ c' buf' n', sends c buf c' buf' (block ls)
    ∧ dotWriter_Write (unlines ls) (mkDotWriter st buf) n c
      = Ret ((mkDotWriter (match ls with [] => st | _ => wstateBeginLine end) buf', n', None),
             c').
Proof.
  intros Hst Hls. revert st n buf c Hst.
  induction Hls as [|l ls Hl _ IH]; intros st n buf c Hst Hq Hw.
  - exists c, buf, n. split; [|done]. repeat split; try done. by rewrite append_nil_r.
  - change (unlines (l :: ls)) with (l ++ String LF (unlines ls)).
    change (block (l :: ls)) with (stuff l ++ CRLF ++ block ls).
    destruct (dotWriter_Write_line l (unlines ls) st n buf c Hst Hl Hq Hw)
      as (c1 & b1 & Hs1 & ->).
    destruct (IH wstateBeginLine (n + S (String.length l))%nat b1 c1)
      as (c2 & b2 & n' & Hs2 & ->); [by right | apply Hs1..|].
    exists c2, b2, n'. split.
    + rewrite <- append_assoc. exact (sends_trans _ _ _ _ _ _ _ _ Hs1 Hs2).
    + by destruct ls.
Qed.

(** The article that [Post] sends for a text of lines, each ended by a line
    feed: after the command, each line with its line end CR LF, with one more
    dot in front when it begins with a dot, and then the line of the closing
    dot. *)
Theorem Post_dot_block (ls : list string) (m1 m2 : string) (c : Conn) (rest : list string) :
  quota c = None → werr c = None →
  unread c = ("340 " ++ m1) :: ("240 " ++ m2) :: rest →
  Forall textLine ls → ls ≠ [] →
  ∃ c', Post (mkReader (unlines ls) None) c = Ret (None, c')
    ∧ unread c' = rest
    ∧ written c' = written c ++ (("POST" ++ CRLF) ++ (block ls ++ String DOT CRLF)).
Proof.
  intros Hq Hw Hu Hls Hne.
  unfold Post, mbind at 1, M_bind. rewrite PrintfLine_unlimited by done.
  unfold mbind at 1, M_bind.
  erewrite (ReadCodeLine_exact "3" "4" "0" m1 340) by done.
  set (c2 := mkConn _ _ _ _ _).
  assert (written c2 = written c ++ ("POST" ++ CRLF)) as Hwr2.
  { unfold c2.
    match goal with
    | |- written ?x = _ =>
        rewrite (written_log c x [EvWrite ("POST" ++ CRLF); EvRead ("340 " ++ m1)])
          by (cbn [log]; by rewrite <- app_assoc)
    end.
    simpl. by rewrite append_nil_r. }
  unfold mbind at 1, M_bind, Copy, mbind at 1, M_bind. cbn [rdData rdErr].
  destruct (dotWriter_Write_lines ls wstateBegin 0 "" c2) as (c3 & b3 & n' & Hs3 & H3);
    [by left | done..|].
  unfold DotWriter. rewrite H3.
  destruct ls as [|l ls]; [done|]. cbn beta iota.
  unfold dotWriter_Close. unfold mbind, M_bind, mret, M_ret.
  cbn [state W]. cbn beta iota zeta.
  destruct (bufio_Write_sends (String DOT CRLF) b3 c3) as (c4 & b4 & -> & Hs4);
    [apply Hs3..|].
  cbn beta iota.
  destruct (bufio_Flush_sends b4 c4) as (c5 & -> & Hs5); [apply Hs4..|].
  cbn beta iota.
  pose proof (sends_trans _ _ _ _ _ _ _ _ Hs3 (sends_trans _ _ _ _ _ _ _ _ Hs4 Hs5))
    as (Hq5 & Hw5 & Hu5 & Hwr5).
  erewrite (ReadCodeLine_exact "2" "4" "0" m2 240 c5 rest) by (try done; by rewrite Hu5).
  eexists. split; [reflexivity|]. split; [done|].
  erewrite written_read by reflexivity.
  rewrite !append_nil_r in Hwr5. by rewrite Hwr5, Hwr2, !append_assoc.
Qed.

Lemma Post_dot_block_witness :
  ∃ c', Post (mkReader (unlines ["Subject: test"; ""; ".signature"; "."]) None)
          (serverSends ["340 send article"; "240 article received"])
        = Ret (None, c')
    ∧ unread c' = []
    ∧ written c' = written (serverSends ["340 send article"; "240 article received"])
                   ++ (("POST" ++ CRLF)
                       ++ (block ["Subject: test"; ""; ".signature"; "."] ++ String DOT CRLF)).
Proof.
  apply (Post_dot_block ["Subject: test"; ""; ".signature"; "."] "send article"
           "article received" (serverSends ["340 send article"; "240 article received"]) []);
    try reflexivity.
  - repeat constructor; compute_done.
  - done.
Defined.

Lemma unstuff_stuff (l : string) : unstuff (stuff l) = l ∧ stuff l ≠ ".".
Proof.
  destruct l as [|a l]; [done|]. simpl.
  destruct (Ascii.eqb a DOT) eqn:Ha; simpl; [done|]. rewrite Ha. split; [done|].
  intros [= -> _]. by vm_compute in Ha.
Qed.

Lemma unstuff_stuff_list (ls : list string) : unstuff <$> (stuff <$> ls) = ls.
Proof.
  induction ls as [|l ls IH]; [done|]. simpl.
  rewrite (proj1 (unstuff_stuff l)). f_equal. exact IH.
Qed.

(** What the client sends as a dot-terminated block it also reads back:
    for a block of stuffed lines and the closing dot after the status line,
    [MultilineCommand] returns the message of the status line followed by the
    lines as they were before the stuffing, and stops after the dot. *)
Theorem MultilineCommand_round_trip (cmd msg : string) (a b d : ascii) (code : Z)
    (c c1 : Conn) (ls rest : list string) :
  Atoi (String a (String b (String d ""))) = (code, None) → 100 ≤ code < 1000 →
  PrintfLine cmd c = Ret (None, c1) →
  unread c = String a (String b (String d (String SP msg)))
             :: ((stuff <$> ls) ++ "." :: rest)%list →
  ∃ c2, MultilineCommand cmd code c = Ret ((code, msg :: ls, None), c2) ∧ unread c2 = rest.
Proof.
  intros HA Hc Hw Hu.
  destruct (MultilineCommand_answer cmd msg a b d code c c1 (stuff <$> ls) rest HA Hc Hw Hu)
    as (c2 & Hm & Hu2 & _).
  { intros Hin. apply list_elem_of_fmap in Hin as (l & Hl & _).
    by destruct (unstuff_stuff l) as [_ []]. }
  exists c2. split; [|done]. rewrite Hm.
  by rewrite unstuff_stuff_list.
Qed.

Lemma MultilineCommand_round_trip_witness :
  ∃ c2, MultilineCommand "LIST ACTIVE" 215
          (serverSends ("215 list follows" :: (stuff <$> ["a 2 1 y"; ".b 2 1 y"; "."; ""])
                                               ++ "." :: ["next"]))
        = Ret ((215, "list follows" :: ["a 2 1 y"; ".b 2 1 y"; "."; ""], None), c2)
    ∧ unread c2 = ["next"].
Proof.
  apply (MultilineCommand_round_trip "LIST ACTIVE" "list follows" "2" "1" "5" 215
           (serverSends ("215 list follows" :: (stuff <$> ["a 2 1 y"; ".b 2 1 y"; "."; ""])
                                                ++ "." :: ["next"]))
           (mkConn ("215 list follows" :: (stuff <$> ["a 2 1 y"; ".b 2 1 y"; "."; ""])
                                           ++ "." :: ["next"]) None None (inl ErrZlib)
              [EvWrite ("LIST ACTIVE" ++ CRLF)])
           ["a 2 1 y"; ".b 2 1 y"; "."; ""] ["next"]); try reflexivity. lia.
Defined.
